(** * ClickBooster: click-rate window, trigger detector, burst worker and
      sensitivity damper of [src/ClickBooster.py]

    The embedding follows the Python source function by function.

    - Python [float]s (and the [int]s of the configuration that only ever
      meet floats) are exact rationals [Q]; a division whose divisor is
      zero raises [ZeroDivisionError] as in Python.
    - [time.perf_counter()], the [random] module, the OS cursor query and
      the pynput controller are inputs: every call site takes the value the
      call returned from an environment record.
    - The three threads are interleaved at the granularity of the events of
      [Event]: a whole [_on_click] callback, one queue [get], one write of
      the [_simulating] flag, one synthetic click, one damping tick. What
      depends on the statements of the callback taking turns with the
      other threads (the source takes no lock) is stated over [Fine],
      where the callback runs one statement at a time.
    - What depends on the rounding of doubles (how many passes a ramp
      takes) is stated over [Float64], on IEEE binary64. *)

From Stdlib Require Import ZArith QArith Qabs Lqa Lia List Bool.
From Stdlib Require Import PrimFloat.
Import ListNotations.

Open Scope Q_scope.

(** ** Python primitives *)

Module Py.

Inductive exn : Type :=
| ZeroDivisionError
| IndexError
| ValueError
| ControllerError.

Inductive result (A : Type) : Type :=
| Ok (a : A)
| Raise (e : exn).
Arguments Ok {A} a.
Arguments Raise {A} e.

Definition bind {A B : Type} (r : result A) (k : A -> result B) : result B :=
  match r with
  | Ok a => k a
  | Raise e => Raise e
  end.

(** Strict comparisons on floats, as booleans. *)
Definition Qlt_bool (a b : Q) : bool := negb (Qle_bool b a).
Definition Qgt_bool (a b : Q) : bool := Qlt_bool b a.

(** [a / b] on floats. *)
Definition truediv (a b : Q) : result Q :=
  if Qeq_bool b 0 then Raise ZeroDivisionError else Ok (a / b).

(** [max(a, b)]: the first argument is kept unless the second is
    strictly greater; [min(a, b)] likewise. *)
Definition max (a b : Q) : Q := if Qgt_bool b a then b else a.
Definition min (a b : Q) : Q := if Qlt_bool b a then b else a.

(** [int(x)] of a float: truncation toward zero. *)
Definition int (x : Q) : Z := Z.quot (Qnum x) (Z.pos (Qden x)).

(** [abs(x)]. *)
Definition abs (x : Q) : Q := Qabs x.

(** [random.random()]: 53 random bits scaled into [0, 1). The argument
    is the raw output of the generator. *)
Definition random (raw : Z) : Q :=
  Qmake (raw mod 9007199254740992) 9007199254740992.

(** [random.uniform(a, b) = a + (b - a) * random()]. *)
Definition uniform (a b : Q) (raw : Z) : Q := a + (b - a) * random raw.

(** [random.randint(a, b) = a + randbelow(b - a + 1)]. *)
Definition randint (a b : Z) (raw : Z) : Z := (a + raw mod (b - a + 1))%Z.

(** [l[-2]]. *)
Definition index_neg2 {A : Type} (l : list A) : result A :=
  match rev l with
  | _ :: a :: _ => Ok a
  | _ => Raise IndexError
  end.

(** Code that mutates a state [S] and may raise: the state reached is
    kept when an exception leaves the code. *)
Definition ST (S A : Type) : Type := S -> result A * S.

Definition ret {S A : Type} (a : A) : ST S A := fun s => (Ok a, s).

Definition seq {S A B : Type} (c : ST S A) (k : A -> ST S B) : ST S B :=
  fun s =>
    match c s with
    | (Ok a, s') => k a s'
    | (Raise e, s') => (Raise e, s')
    end.

Definition lift {S A : Type} (r : result A) : ST S A := fun s => (r, s).

Definition modify {S : Type} (f : S -> S) : ST S unit :=
  fun s => (Ok tt, f s).

(** [try: body finally: fin]. *)
Definition try_finally {S A : Type}
    (body : ST S A) (fin : S -> S) : ST S A :=
  fun s => let (r, s') := body s in (r, fin s').

End Py.

Notation "x <- c ;; k" := (Py.bind c (fun x => k))
  (at level 61, c at next level, right associativity).
Notation "x <~ c ;; k" := (Py.seq c (fun x => k))
  (at level 61, c at next level, right associativity).
Notation "c ;;; k" := (Py.seq c (fun _ => k))
  (at level 61, right associativity).

(** ** Configuration *)

(** [pynput.mouse.Button] on Windows. *)
Inductive Button : Type :=
| unknown | left | middle | right | x1 | x2.

Definition Button_eqb (a b : Button) : bool :=
  match a, b with
  | unknown, unknown | left, left | middle, middle
  | right, right | x1, x1 | x2, x2 => true
  | _, _ => false
  end.

Record Config : Type := mkConfig {
  HARD_CPS_LIMIT : Q;
  TARGET_CPS_RANGE : Q * Q;
  TRIGGER_BUTTONS : list Button;
  DOUBLE_CLICK_THRESHOLD : Q;
  CPS_SLOWDOWN_THRESHOLD : Q;
  SENS_MULTIPLIER : Q;
  SENS_RAMP_DOWN_MS : Q;
  SENS_RAMP_UP_MS : Q;
  CPS_WINDOW_SECONDS : Q;
  STALE_TIMEOUT_MS : Q;
  POLLING_RATE_HZ : Q
}.

Definition DEFAULT_CONFIG : Config := {|
  HARD_CPS_LIMIT := 18;
  TARGET_CPS_RANGE := (15, 17);
  TRIGGER_BUTTONS := [left; right];
  DOUBLE_CLICK_THRESHOLD := 15 # 100;
  CPS_SLOWDOWN_THRESHOLD := 10;
  SENS_MULTIPLIER := 5 # 10;
  SENS_RAMP_DOWN_MS := 40;
  SENS_RAMP_UP_MS := 15;
  CPS_WINDOW_SECONDS := 3 # 10;
  STALE_TIMEOUT_MS := 100;
  POLLING_RATE_HZ := 250
|}.

(** ** ClickSimulator: the shared state *)

(** The payload [(button, time.perf_counter())] put on the work queue. *)
Definition Signal : Type := (Button * Q)%type.

Record Sim : Type := mkSim {
  config : Config;
  _is_listening : bool;
  _simulating : bool;
  _work_queue : list Signal;          (* queue.Queue(), head = next out *)
  total_click_history : list Q;       (* deque, head = index 0 *)
  last_click_time : Q
}.

Definition set_is_listening (b : bool) (s : Sim) : Sim :=
  mkSim (config s) b (_simulating s) (_work_queue s)
        (total_click_history s) (last_click_time s).

Definition set_simulating (b : bool) (s : Sim) : Sim :=
  mkSim (config s) (_is_listening s) b (_work_queue s)
        (total_click_history s) (last_click_time s).

Definition set_work_queue (q : list Signal) (s : Sim) : Sim :=
  mkSim (config s) (_is_listening s) (_simulating s) q
        (total_click_history s) (last_click_time s).

Definition set_history (h : list Q) (s : Sim) : Sim :=
  mkSim (config s) (_is_listening s) (_simulating s) (_work_queue s)
        h (last_click_time s).

(** [ClickSimulator.__init__], the part that is shared state. *)
Definition Sim_init (cfg : Config) : Sim := {|
  config := cfg;
  _is_listening := false;
  _simulating := false;
  _work_queue := [];
  total_click_history := [];
  last_click_time := 0
|}.

(** The [while] of [get_total_cps]: pop from the left as long as the
    deque is not empty and [now - history[0] > window]. *)
Fixpoint evict (now window : Q) (h : list Q) : list Q :=
  match h with
  | [] => []
  | t :: rest =>
      if Py.Qgt_bool (now - t) window then evict now window rest else h
  end.

(** [get_total_cps]; [now] is its own reading of the clock. The eviction
    stays in the state also when the division raises. *)
Definition get_total_cps (now : Q) (s : Sim) : Py.result Q * Sim :=
  let h := evict now (CPS_WINDOW_SECONDS (config s)) (total_click_history s) in
  let s' := set_history h s in
  match h with
  | [] => (Py.Ok 0, s')
  | _ :: _ =>
      (Py.truediv (inject_Z (Z.of_nat (length h)))
                  (CPS_WINDOW_SECONDS (config s)), s')
  end.

(** [register_click_event]; [now] is its reading of the clock. *)
Definition register_click_event (now : Q) (s : Sim) : Sim :=
  mkSim (config s) (_is_listening s) (_simulating s) (_work_queue s)
        (total_click_history s ++ [now]) now.

(** [start] and [stop], as far as the shared state goes. *)
Definition start (s : Sim) : Sim := set_is_listening true s.
Definition stop (s : Sim) : Sim := set_is_listening false s.

(** The three clock readings of one [_on_click] call, in program order:
    in [register_click_event], in the threshold test, in the payload. *)
Record ClickClock : Type := mkClickClock {
  t_register : Q;
  t_check : Q;
  t_payload : Q
}.

Definition is_trigger (cfg : Config) (button : Button) : bool :=
  existsb (Button_eqb button) (TRIGGER_BUTTONS cfg).

(** [_on_click(x, y, button, pressed)]. *)
Definition _on_click (x y : Z) (button : Button) (pressed : bool)
    (clk : ClickClock) (s : Sim) : Py.result unit * Sim :=
  if negb pressed || negb (is_trigger (config s) button) then (Py.Ok tt, s)
  else
    let s1 := register_click_event (t_register clk) s in
    if _simulating s1 then (Py.Ok tt, s1)
    else if (1 <? length (total_click_history s1))%nat then
      match Py.index_neg2 (total_click_history s1) with
      | Py.Raise e => (Py.Raise e, s1)
      | Py.Ok prev_time =>
          if Qle_bool (t_check clk - prev_time)
                      (DOUBLE_CLICK_THRESHOLD (config s1)) then
            if match _work_queue s1 with [] => true | _ => false end then
              (Py.Ok tt,
               set_work_queue (_work_queue s1 ++ [(button, t_payload clk)]) s1)
            else (Py.Ok tt, s1)
          else (Py.Ok tt, s1)
      end
    else (Py.Ok tt, s1).

(** ** ClickSimulator: the worker *)

(** What the worker does to the outside world, in order. The two
    [time.sleep] call sites of the burst are told apart. *)
Inductive SleepSite : Type := BeforePress | Hold.

Inductive Action : Type :=
| Sleep (site : SleepSite) (seconds : Q)
| Press (button : Button)
| Release (button : Button).

Record World : Type := mkWorld {
  sim : Sim;
  emitted : list Action       (* oldest first *)
}.

Definition on_sim (f : Sim -> Sim) (w : World) : World :=
  mkWorld (f (sim w)) (emitted w).

Definition emit (a : Action) (w : World) : World :=
  mkWorld (sim w) (emitted w ++ [a]).

(** What one pass of the [for] body meets: whether [stop()] has run on the
    main thread since the previous test of [_is_listening], the two random
    draws, the clock reading of [register_click_event], and whether the
    controller calls raise. *)
Record UnitEnv : Type := mkUnitEnv {
  stop_requested : bool;
  raw_delay : Z;
  press_raises : bool;
  t_click : Q;
  raw_hold : Z;
  release_raises : bool
}.

(** The processing-time offset of the first [time.sleep]. *)
Definition PROCESSING_OFFSET : Q := 15 # 1000.

(** The argument of the first [time.sleep] of a pass. *)
Definition pre_click_sleep (cfg : Config) (raw : Z) : Py.result Q :=
  min_delay <- Py.truediv 1 (snd (TARGET_CPS_RANGE cfg));;
  max_delay <- Py.truediv 1 (fst (TARGET_CPS_RANGE cfg));;
  let delay := Py.uniform min_delay max_delay raw in
  Py.Ok (Py.max 0 (delay - PROCESSING_OFFSET)).

(** [self.mouse_controller.press(button)] and [release(button)]. *)
Definition controller_press (raises : bool) (button : Button)
  : Py.ST World unit :=
  if raises then Py.lift (Py.Raise Py.ControllerError)
  else Py.modify (emit (Press button)).

Definition controller_release (raises : bool) (button : Button)
  : Py.ST World unit :=
  if raises then Py.lift (Py.Raise Py.ControllerError)
  else Py.modify (emit (Release button)).

(** One pass of the [for] body, after the test of [_is_listening]. *)
Definition burst_unit (button : Button) (u : UnitEnv) : Py.ST World unit :=
  fun w =>
   (d <~ Py.lift (pre_click_sleep (config (sim w)) (raw_delay u));;
    Py.modify (emit (Sleep BeforePress d));;;
    controller_press (press_raises u) button;;;
    Py.modify (on_sim (register_click_event (t_click u)));;;
    Py.modify (emit (Sleep Hold (Py.uniform (1 # 100) (2 # 100) (raw_hold u))));;;
    controller_release (release_raises u) button) w.

(** [for _ in range(n)] from pass [i] on, with its [break]. *)
Fixpoint burst_loop (button : Button) (units : nat -> UnitEnv)
    (i n : nat) : Py.ST World unit :=
  match n with
  | O => Py.ret tt
  | S n' =>
      fun w =>
        let w := if stop_requested (units i) then on_sim stop w else w in
        if negb (_is_listening (sim w)) then (Py.Ok tt, w)
        else (burst_unit button (units i);;;
              burst_loop button units (S i) n') w
  end.

Record BurstEnv : Type := mkBurstEnv {
  raw_count : Z;
  units : nat -> UnitEnv
}.

Definition clicks_to_add (env : BurstEnv) : Z :=
  Py.randint 2 4 (raw_count env).

(** The body of [_worker_loop] once a signal has been received. *)
Definition worker_burst (button : Button) (env : BurstEnv)
  : Py.ST World unit :=
  Py.modify (on_sim (set_simulating true));;;
  Py.try_finally
    (burst_loop button (units env) 0 (Z.to_nat (clicks_to_add env)))
    (on_sim (set_simulating false)).

(** [self._work_queue.get(timeout=0.05)]: the oldest signal, if any. *)
Definition queue_get (s : Sim) : option Signal * Sim :=
  match _work_queue s with
  | [] => (None, s)
  | sig :: rest => (Some sig, set_work_queue rest s)
  end.

(** One pass of the [while] of [_worker_loop]. *)
Definition _worker_loop_pass (env : BurstEnv) : Py.ST World unit :=
  fun w =>
    if negb (_is_listening (sim w)) then (Py.Ok tt, w)
    else
      match queue_get (sim w) with
      | (None, _) => (Py.Ok tt, w)
      | (Some (button, _), s') =>
          worker_burst button env (mkWorld s' (emitted w))
      end.

(** ** SensitivityEngine *)

(** [POINT]: two [wintypes.LONG] fields. *)
Module POINT.
Record t : Type := mk { x : Z; y : Z }.
(** [POINT()]: zero-initialised. *)
Definition zero : t := mk 0 0.
End POINT.

(** Storing a Python [int] into a [LONG] field keeps the low 32 bits,
    read back as a signed value. *)
Definition to_LONG (z : Z) : Z :=
  ((z + 2147483648) mod 4294967296 - 2147483648)%Z.

Definition is_LONG (z : Z) : Prop := (-2147483648 <= z < 2147483648)%Z.

(** [user32.GetCursorPos(ctypes.byref(buf))]: [os] is the cursor position
    when the call succeeds and [None] when it fails; a failed call returns
    0 and leaves the buffer as it was. *)
Definition GetCursorPos (os : option POINT.t) (buf : POINT.t)
  : bool * POINT.t :=
  match os with
  | Some p => (true, p)
  | None => (false, buf)
  end.

Record Engine : Type := mkEngine {
  multiplier : Q;
  step_down : Q;
  step_up : Q;
  current_weight : Q;
  _running : bool;
  last_pos : POINT.t
}.

Definition set_current_weight (w : Q) (e : Engine) : Engine :=
  mkEngine (multiplier e) (step_down e) (step_up e) w (_running e)
           (last_pos e).

Definition set_last_pos (p : POINT.t) (e : Engine) : Engine :=
  mkEngine (multiplier e) (step_down e) (step_up e) (current_weight e)
           (_running e) p.

Definition set_running (b : bool) (e : Engine) : Engine :=
  mkEngine (multiplier e) (step_down e) (step_up e) (current_weight e)
           b (last_pos e).

(** The tick period in milliseconds, [1000 / POLLING_RATE_HZ]. *)
Definition polling_ms (cfg : Config) : Py.result Q :=
  Py.truediv 1000 (POLLING_RATE_HZ cfg).

(** [SensitivityEngine.__init__]; [os] answers its [GetCursorPos]. *)
Definition Engine_init (cfg : Config) (os : option POINT.t)
  : Py.result Engine :=
  polling <- polling_ms cfg;;
  down_ticks <- Py.truediv (SENS_RAMP_DOWN_MS cfg) polling;;
  sd <- Py.truediv 1 down_ticks;;
  up_ticks <- Py.truediv (SENS_RAMP_UP_MS cfg) polling;;
  su <- Py.truediv 1 up_ticks;;
  Py.Ok {| multiplier := SENS_MULTIPLIER cfg;
           step_down := sd;
           step_up := su;
           current_weight := 1;
           _running := false;
           last_pos := snd (GetCursorPos os POINT.zero) |}.

(** A relative move handed to [mouse_event]: [(int(dx), int(dy))]. *)
Definition Move : Type := (Z * Z)%type.

Definition _move_relative (dx dy : Q) : Move := (Py.int dx, Py.int dy).

(** Step 1 of the loop body: is the click stream active? *)
Definition is_over_limit (cfg : Config) (current_cps time_since_last : Q)
  : bool :=
  Qle_bool (CPS_SLOWDOWN_THRESHOLD cfg) current_cps
  && Py.Qlt_bool time_since_last (STALE_TIMEOUT_MS cfg).

(** Step 2 of the loop body: asymmetric ramping. *)
Definition target_weight (over_limit : bool) (e : Engine) : Q :=
  if over_limit then multiplier e else 1.

Definition ramp (over_limit : bool) (e : Engine) : Engine :=
  let target := target_weight over_limit e in
  if Py.Qgt_bool (current_weight e) target then
    set_current_weight (Py.max target (current_weight e - step_down e)) e
  else if Py.Qlt_bool (current_weight e) target then
    set_current_weight (Py.min target (current_weight e + step_up e)) e
  else e.

(** The threshold above which the damper counts as inactive. *)
Definition INACTIVE_WEIGHT : Q := 995 # 1000.

(** The correction of a displacement [d] at weight [w]: [d * (w - 1.0)]. *)
Definition correction (d : Z) (w : Q) : Q := inject_Z d * (w - 1).

(** Step 3 of the loop body: the counter-movement. [os] answers the one
    [GetCursorPos] of the tick. Returns the moves issued. *)
Definition counter_move (os : option POINT.t) (e : Engine)
  : list Move * Engine :=
  if Py.Qlt_bool (current_weight e) INACTIVE_WEIGHT then
    let (ok, curr_pos) := GetCursorPos os POINT.zero in
    if ok then
      let dx := (POINT.x curr_pos - POINT.x (last_pos e))%Z in
      let dy := (POINT.y curr_pos - POINT.y (last_pos e))%Z in
      if negb (dx =? 0)%Z || negb (dy =? 0)%Z then
        let rx := correction dx (current_weight e) in
        let ry := correction dy (current_weight e) in
        if Qle_bool 1 (Py.abs rx) || Qle_bool 1 (Py.abs ry) then
          ([_move_relative rx ry],
           set_last_pos
             (POINT.mk (to_LONG (POINT.x curr_pos + Py.int rx))
                       (to_LONG (POINT.y curr_pos + Py.int ry))) e)
        else ([], set_last_pos curr_pos e)
      else ([], set_last_pos curr_pos e)
    else ([], set_last_pos curr_pos e)
  else ([], set_last_pos (snd (GetCursorPos os (last_pos e))) e).

(** What one pass of the [while] of [loop] meets: the clock reading of the
    loop, the later one inside [get_total_cps], and the cursor query. *)
Record TickEnv : Type := mkTickEnv {
  t_loop : Q;
  t_cps : Q;
  cursor : option POINT.t
}.

(** One pass of the [while] of [SensitivityEngine.loop]. *)
Definition loop_pass (env : TickEnv) (e : Engine) (s : Sim)
  : Py.result (list Move) * Engine * Sim :=
  let now := t_loop env in
  match get_total_cps (t_cps env) s with
  | (Py.Raise ex, s') => (Py.Raise ex, e, s')
  | (Py.Ok current_cps, s') =>
      let time_since_last := (now - last_click_time s') * 1000 in
      let over := is_over_limit (config s') current_cps time_since_last in
      let (moves, e') := counter_move (cursor env) (ramp over e) in
      (Py.Ok moves, e', s')
  end.

(** The [time.sleep(1.0 / POLLING_RATE_HZ)] that ends a pass (line 129):
    the division raises on a zero rate and [time.sleep] raises
    [ValueError] on a negative duration. *)
Definition loop_sleep (cfg : Config) : Py.result Q :=
  d <- Py.truediv 1 (POLLING_RATE_HZ cfg);;
  if Py.Qlt_bool d 0 then Py.Raise Py.ValueError else Py.Ok d.

(** ** The running system: three threads over the shared state *)

Record System : Type := mkSystem {
  world : World;
  engine : Engine;
  moves : list Move;           (* relative moves issued, oldest first *)
  listener_exn : option Py.exn;   (* an exception left [_on_click] *)
  damper_exn : option Py.exn      (* an exception ended [loop] *)
}.

Inductive Event : Type :=
| EvClick (x y : Z) (button : Button) (pressed : bool) (clk : ClickClock)
| EvWorkerGet
| EvWorkerSimulating (b : bool)
| EvWorkerUnit (button : Button) (u : UnitEnv)
| EvTick (env : TickEnv)
| EvStop
| EvLoopStart.       (* line 83 *)

Definition step (ev : Event) (sys : System) : System :=
  let w := world sys in
  match ev with
  | EvClick x y button pressed clk =>
      let (r, s') := _on_click x y button pressed clk (sim w) in
      mkSystem (mkWorld s' (emitted w)) (engine sys) (moves sys)
               (match r with
                | Py.Ok _ => listener_exn sys
                | Py.Raise ex => Some ex
                end)
               (damper_exn sys)
  | EvWorkerGet =>
      mkSystem (on_sim (fun s => snd (queue_get s)) w) (engine sys)
               (moves sys) (listener_exn sys) (damper_exn sys)
  | EvWorkerSimulating b =>
      mkSystem (on_sim (set_simulating b) w) (engine sys) (moves sys)
               (listener_exn sys) (damper_exn sys)
  | EvWorkerUnit button u =>
      mkSystem (snd (burst_unit button u w)) (engine sys) (moves sys)
               (listener_exn sys) (damper_exn sys)
  | EvTick env =>
      match damper_exn sys with
      | Some _ => sys
      | None =>
          if _running (engine sys) then
            match loop_pass env (engine sys) (sim w) with
            | (Py.Ok ms, e', s') =>
                mkSystem (mkWorld s' (emitted w)) e' (moves sys ++ ms)
                         (listener_exn sys)
                         (match loop_sleep (config s') with
                          | Py.Ok _ => None
                          | Py.Raise ex => Some ex
                          end)
            | (Py.Raise ex, e', s') =>
                mkSystem (mkWorld s' (emitted w)) e' (moves sys)
                         (listener_exn sys) (Some ex)
            end
          else sys
      end
  | EvStop =>
      mkSystem (on_sim stop w) (set_running false (engine sys)) (moves sys)
               (listener_exn sys) (damper_exn sys)
  | EvLoopStart =>
      mkSystem w (set_running true (engine sys)) (moves sys)
               (listener_exn sys) (damper_exn sys)
  end.

Definition run (evs : list Event) (sys : System) : System :=
  fold_left (fun acc ev => step ev acc) evs sys.

(** The system just after [ClickSimulator.__init__] and [start()]: the
    damping loop has set [_running]. *)
Definition System_start (cfg : Config) (os : option POINT.t)
  : Py.result System :=
  e <- Engine_init cfg os;;
  Py.Ok {| world := mkWorld (start (Sim_init cfg)) [];
           engine := set_running true e;
           moves := [];
           listener_exn := None;
           damper_exn := None |}.

(** ** The click callback, one statement at a time *)

(** The two statements of [register_click_event] (lines 159 and 160):
    the append reads [last_click_time] back from the object. *)
Definition set_last_click_time (t : Q) (s : Sim) : Sim :=
  mkSim (config s) (_is_listening s) (_simulating s) (_work_queue s)
        (total_click_history s) t.

Definition append_last_click_time (s : Sim) : Sim :=
  mkSim (config s) (_is_listening s) (_simulating s) (_work_queue s)
        (total_click_history s ++ [last_click_time s]) (last_click_time s).

(** One turn of the [while] of [get_total_cps] (lines 149-150). *)
Definition popleft_if_stale (now : Q) (s : Sim) : Sim :=
  match total_click_history s with
  | [] => s
  | t :: rest =>
      if Py.Qgt_bool (now - t) (CPS_WINDOW_SECONDS (config s))
      then set_history rest s else s
  end.

Module Fine.

(** Where the listener thread stands inside [_on_click]: the line it
    runs next. *)
Inductive Listener : Type :=
| Idle
| Entered (button : Button) (clk : ClickClock)           (* line 159 *)
| Stamped (button : Button) (clk : ClickClock)           (* line 160 *)
| Registered (button : Button) (clk : ClickClock)        (* line 190 *)
| NotSimulating (button : Button) (clk : ClickClock)     (* line 194 *)
| TwoRetained (button : Button) (clk : ClickClock)       (* line 195 *)
| HavePrev (button : Button) (clk : ClickClock) (prev_time : Q)
                                                         (* line 196 *)
| InThreshold (button : Button) (clk : ClickClock)       (* line 197 *)
| FoundEmpty (button : Button) (clk : ClickClock).       (* line 198 *)

Record State : Type := mkState {
  shared : Sim;
  listener : Listener;
  raised : option Py.exn      (* an exception left [_on_click] *)
}.

(** What can happen next: the input source invokes the callback, the
    listener runs its next statement, or another thread runs one of its
    statements on the shared state. *)
Inductive Event : Type :=
| Deliver (x y : Z) (button : Button) (pressed : bool) (clk : ClickClock)
| Listen
| WorkerGet                   (* line 203 *)
| WorkerSimulating (b : bool) (* lines 207 and 227 *)
| WorkerStamp (t : Q)         (* line 159, from line 223 *)
| WorkerAppend                (* line 160, from line 223 *)
| DamperPopleft (now : Q)     (* lines 149-150, from line 86 *)
| Stop.                       (* line 179 *)

(** The next statement of the callback. *)
Definition listen (st : State) : State :=
  let s := shared st in
  match listener st with
  | Idle => st
  | Entered b clk =>
      mkState (set_last_click_time (t_register clk) s) (Stamped b clk)
              (raised st)
  | Stamped b clk =>
      mkState (append_last_click_time s) (Registered b clk) (raised st)
  | Registered b clk =>
      mkState s (if _simulating s then Idle else NotSimulating b clk)
              (raised st)
  | NotSimulating b clk =>
      mkState s (if (1 <? length (total_click_history s))%nat
                 then TwoRetained b clk else Idle)
              (raised st)
  | TwoRetained b clk =>
      match Py.index_neg2 (total_click_history s) with
      | Py.Ok prev_time => mkState s (HavePrev b clk prev_time) (raised st)
      | Py.Raise ex => mkState s Idle (Some ex)
      end
  | HavePrev b clk prev_time =>
      mkState s (if Qle_bool (t_check clk - prev_time)
                             (DOUBLE_CLICK_THRESHOLD (config s))
                 then InThreshold b clk else Idle)
              (raised st)
  | InThreshold b clk =>
      mkState s (match _work_queue s with
                 | [] => FoundEmpty b clk
                 | _ :: _ => Idle
                 end)
              (raised st)
  | FoundEmpty b clk =>
      mkState (set_work_queue (_work_queue s ++ [(b, t_payload clk)]) s)
              Idle (raised st)
  end.

Definition on_shared (f : Sim -> Sim) (st : State) : State :=
  mkState (f (shared st)) (listener st) (raised st).

(** Callbacks are delivered one after the other, and no more once one
    has raised; line 185 decides whether the callback goes on. *)
Definition step (ev : Event) (st : State) : State :=
  match ev with
  | Deliver x y button pressed clk =>
      match listener st, raised st with
      | Idle, None =>
          if negb pressed || negb (is_trigger (config (shared st)) button)
          then st
          else mkState (shared st) (Entered button clk) None
      | _, _ => st
      end
  | Listen => listen st
  | WorkerGet => on_shared (fun s => snd (queue_get s)) st
  | WorkerSimulating b => on_shared (set_simulating b) st
  | WorkerStamp t => on_shared (set_last_click_time t) st
  | WorkerAppend => on_shared append_last_click_time st
  | DamperPopleft now => on_shared (popleft_if_stale now) st
  | Stop => on_shared stop st
  end.

Definition run (evs : list Event) (st : State) : State :=
  fold_left (fun acc ev => step ev acc) evs st.

(** The state once [start()] has run. *)
Definition boot (cfg : Config) : State :=
  mkState (start (Sim_init cfg)) Idle None.

(** A callback that runs from its call to its return with no other
    thread in between. *)
Definition callback (x y : Z) (button : Button) (pressed : bool)
    (clk : ClickClock) : list Event :=
  Deliver x y button pressed clk :: repeat Listen 8.

(** A press of [button] all of whose clock readings are [t]. *)
Definition press_at (button : Button) (t : Q) : list Event :=
  callback 0 0 button true (mkClickClock t t t).

(** The first [n] statements of such a press. *)
Definition press_begun (button : Button) (t : Q) (n : nat) : list Event :=
  Deliver 0 0 button true (mkClickClock t t t) :: repeat Listen n.

Definition is_popleft (ev : Event) : bool :=
  match ev with
  | DamperPopleft _ => true
  | _ => false
  end.

(** The callback has passed the length test of line 194 and has not yet
    read [total_click_history[-2]] (line 195). *)
Definition before_read (l : Listener) : bool :=
  match l with
  | TwoRetained _ _ => true
  | _ => false
  end.

(** Along [evs], run from [st], the damping loop pops nothing between
    the callback's length test and its read. *)
Fixpoint no_popleft_before_read (evs : list Event) (st : State) : bool :=
  match evs with
  | [] => true
  | ev :: rest =>
      negb (is_popleft ev && before_read (listener st))
      && no_popleft_before_read rest (step ev st)
  end.

End Fine.

(** ** The ramp on doubles *)

Module Float64.

(** [a / b] on doubles. *)
Definition truediv (a b : float) : Py.result float :=
  if PrimFloat.eqb b 0 then Py.Raise Py.ZeroDivisionError
  else Py.Ok (PrimFloat.div a b).

Definition max (a b : float) : float := if PrimFloat.ltb a b then b else a.
Definition min (a b : float) : float := if PrimFloat.ltb b a then b else a.

(** The part of the engine the ramp works on. *)
Record Ramp : Type := mkRamp {
  multiplier : float;
  step_down : float;
  step_up : float;
  current_weight : float
}.

(** Lines 63-70 of [SensitivityEngine.__init__]. *)
Definition init (hz down up mult : float) : Py.result Ramp :=
  polling <- truediv 1000 hz;;
  down_ticks <- truediv down polling;;
  sd <- truediv 1 down_ticks;;
  up_ticks <- truediv up polling;;
  su <- truediv 1 up_ticks;;
  Py.Ok (mkRamp mult sd su 1).

Definition target_weight (over : bool) (r : Ramp) : float :=
  if over then multiplier r else 1%float.

(** Lines 94-99. *)
Definition ramp (over : bool) (r : Ramp) : Ramp :=
  let target := target_weight over r in
  let w := current_weight r in
  if PrimFloat.ltb target w then
    mkRamp (multiplier r) (step_down r) (step_up r)
           (max target (PrimFloat.sub w (step_down r)))
  else if PrimFloat.ltb w target then
    mkRamp (multiplier r) (step_down r) (step_up r)
           (min target (PrimFloat.add w (step_up r)))
  else r.

(** [n] passes under a sustained value of [is_over_limit]. *)
Fixpoint passes (over : bool) (n : nat) (r : Ramp) : Ramp :=
  match n with
  | O => r
  | S k => ramp over (passes over k r)
  end.

(** The ramp at the bottom of a down-ramp. *)
Definition damped (r : Ramp) : Ramp :=
  mkRamp (multiplier r) (step_down r) (step_up r) (multiplier r).

Definition at_target (over : bool) (r : Ramp) : bool :=
  PrimFloat.eqb (current_weight r) (target_weight over r).

(** Pass [n] is the first after which the weight is at its target. *)
Definition completes_at (over : bool) (r : Ramp) (n : nat) : Prop :=
  at_target over (passes over n r) = true
  /\ forall k, (k < n)%nat -> at_target over (passes over k r) = false.

(** [n] as a double (exact below 2^53). *)
Fixpoint of_nat (n : nat) : float :=
  match n with
  | O => 0%float
  | S k => PrimFloat.add (of_nat k) 1
  end.

(** [n] passes of [tick] milliseconds last [duration] milliseconds, give
    or take one pass. *)
Definition within_one_tick (tick duration : float) (n : nat) : bool :=
  let elapsed := PrimFloat.mul (of_nat n) tick in
  PrimFloat.leb (PrimFloat.sub duration tick) elapsed
  && PrimFloat.leb elapsed (PrimFloat.add duration tick).

(** The sentence as written, for a configuration given in doubles: the
    down-ramp from 1.0 to the multiplier completes within one tick of
    [SENS_RAMP_DOWN_MS], the up-ramp back to 1.0 within one tick of
    [SENS_RAMP_UP_MS]. *)
Definition ramps_take_configured_time : Prop :=
  forall (hz down up mult : float) (r : Ramp),
    init hz down up mult = Py.Ok r ->
    (forall n, completes_at true r n
               -> within_one_tick (PrimFloat.div 1000 hz) down n = true)
    /\ (forall n, completes_at false (damped r) n
                  -> within_one_tick (PrimFloat.div 1000 hz) up n = true).

(** The ramp of the default rate and durations with multiplier [mult]. *)
Definition default_ramp (mult : float) : Ramp :=
  mkRamp mult
         (PrimFloat.div 1 (PrimFloat.div 40 (PrimFloat.div 1000 250)))
         (PrimFloat.div 1 (PrimFloat.div 15 (PrimFloat.div 1000 250)))
         1.

End Float64.

(** * Vocabulary of the properties *)

(** A timestamp the [while] of [get_total_cps] pops. *)
Definition stale (now window t : Q) : Prop := window < now - t.

(** Timestamps in the order they were recorded. *)
Fixpoint ascending (h : list Q) : Prop :=
  match h with
  | [] => True
  | t :: rest => Forall (fun u => t <= u) rest /\ ascending rest
  end.

(** A timestamp inside the window. *)
Definition fresh_bool (now window t : Q) : bool := Qle_bool (now - t) window.

(** The interval of pre-click sleep durations for the target CPS bounds
    of [cfg]. *)
Definition delay_in_bounds (cfg : Config) (d : Q) : Prop :=
  Py.max 0 (1 / snd (TARGET_CPS_RANGE cfg) - PROCESSING_OFFSET) <= d
  /\ d <= Py.max 0 (1 / fst (TARGET_CPS_RANGE cfg) - PROCESSING_OFFSET).

Definition scenario_history : list Q :=
  [0; 5 # 100; 10 # 100; 15 # 100; 20 # 100].

Definition scenario_sim : Sim :=
  set_history scenario_history (start (Sim_init DEFAULT_CONFIG)).

(** The system once [start()] has run, for an engine [e]. *)
Definition System_boot (cfg : Config) (e : Engine) : System := {|
  world := mkWorld (start (Sim_init cfg)) [];
  engine := set_running true e;
  moves := [];
  listener_exn := None;
  damper_exn := None
|}.

(** A click all of whose clock readings are [t]. *)
Definition click_at (button : Button) (t : Q) : Event :=
  EvClick 0 0 button true (mkClickClock t t t).

(** The engine of the default configuration, cursor at (1000, 500). *)
Definition default_engine : Engine := {|
  multiplier := 5 # 10;
  step_down := 1 # 10;
  step_up := 4 # 15;
  current_weight := 1;
  _running := false;
  last_pos := POINT.mk 1000 500
|}.

(** The sentence as written: with [_simulating] false, a press of a
    trigger button that leaves at least two timestamps retained, the
    previous one within the threshold, appends one signal to the queue. *)
Definition double_click_always_enqueues : Prop :=
  forall (evs : list Event) (x y : Z) (button : Button) (clk : ClickClock)
         (h : list Q) (prev : Q),
    let s := sim (world (run evs (System_boot DEFAULT_CONFIG default_engine))) in
    let s' := snd (_on_click x y button true clk s) in
    is_trigger (config s) button = true ->
    _simulating s = false ->
    total_click_history s = h ++ [prev] ->
    t_check clk - prev <= DOUBLE_CLICK_THRESHOLD (config s) ->
    _work_queue s' = _work_queue s ++ [(button, t_payload clk)].

(** The spec's scenario: clicks at 0.00 and 0.10, threshold 0.15. *)
Definition one_click_sim : Sim :=
  sim (world (run [click_at left 0]
                  (System_boot DEFAULT_CONFIG default_engine))).

(** What a complete pass of the burst emits: [p] is the pair of its two
    sleep durations. *)
Definition unit_actions (button : Button) (p : Q * Q) : list Action :=
  [Sleep BeforePress (fst p); Press button; Sleep Hold (snd p);
   Release button].

(** A duration the first [time.sleep] of a pass can be given. *)
Definition sampled (cfg : Config) (d : Q) : Prop :=
  exists raw, pre_click_sleep cfg raw = Py.Ok d.

(** What a pass that an exception cut short has emitted. *)
Definition cut_short (button : Button) (cfg : Config)
    (units : nat -> UnitEnv) (tail : list Action) : Prop :=
  tail = []
  \/ (exists d, sampled cfg d /\ tail = [Sleep BeforePress d])
  \/ (exists d h j,
        sampled cfg d /\ release_raises (units j) = true
        /\ tail = [Sleep BeforePress d; Press button; Sleep Hold h]).

Record burst_shape (button : Button) (units : nat -> UnitEnv) (n : nat)
    (w : World) (res : Py.result unit * World)
    (pairs : list (Q * Q)) (tail : list Action) : Prop := {
  shape_emitted :
    emitted (snd res)
    = emitted w ++ flat_map (unit_actions button) pairs ++ tail;
  shape_length : (length pairs <= n)%nat;
  shape_cut : tail <> [] -> (length pairs < n)%nat;
  shape_sampled : Forall (fun p => sampled (config (sim w)) (fst p)) pairs;
  shape_tail : cut_short button (config (sim w)) units tail;
  shape_returns : fst res = Py.Ok tt -> tail = [];
  shape_config : config (sim (snd res)) = config (sim w);
  shape_simulating : _simulating (sim (snd res)) = _simulating (sim w)
}.

Ltac shape_easy :=
  simpl; auto; try lia; try discriminate; try congruence;
  try (now rewrite app_nil_r); try (now left).

(** The three ways out of a burst, on the default configuration. *)
Definition quiet_unit : UnitEnv := {|
  stop_requested := false;
  raw_delay := 4503599627370496;
  press_raises := false;
  t_click := 1;
  raw_hold := 0;
  release_raises := false
|}.

Definition stopping_unit : UnitEnv := {|
  stop_requested := true;
  raw_delay := 0;
  press_raises := false;
  t_click := 1;
  raw_hold := 0;
  release_raises := false
|}.

Definition failing_unit : UnitEnv := {|
  stop_requested := false;
  raw_delay := 0;
  press_raises := true;
  t_click := 1;
  raw_hold := 0;
  release_raises := false
|}.

Definition listening_world (cfg : Config) : World :=
  mkWorld (start (Sim_init cfg)) [].

Definition clicks_of (l : list Action) : list Action :=
  filter (fun a => match a with Sleep _ _ => false | _ => true end) l.

(** The sleeps of the first [time.sleep] call site in a run of actions. *)
Definition pre_click_sleeps (l : list Action) : list Q :=
  flat_map (fun a => match a with
                     | Sleep BeforePress d => [d]
                     | _ => []
                     end) l.

(** A configuration whose rates and durations are positive and whose
    multiplier does not exceed 1. *)
Record well_formed (cfg : Config) : Prop := {
  wf_polling : 0 < POLLING_RATE_HZ cfg;
  wf_ramp_down : 0 < SENS_RAMP_DOWN_MS cfg;
  wf_ramp_up : 0 < SENS_RAMP_UP_MS cfg;
  wf_multiplier : SENS_MULTIPLIER cfg <= 1
}.

(** The tick period in milliseconds, as a number. *)
Definition tick_ms (cfg : Config) : Q := 1000 / POLLING_RATE_HZ cfg.

(** What the loop keeps true of its engine. *)
Record weight_in_range (e : Engine) : Prop := {
  range_step_down : 0 <= step_down e;
  range_step_up : 0 <= step_up e;
  range_multiplier : multiplier e <= 1;
  range_low : multiplier e <= current_weight e;
  range_high : current_weight e <= 1
}.

(** The engine at the bottom of a down-ramp. *)
Definition damped (e : Engine) : Engine :=
  set_current_weight (multiplier e) e.

(** The engine of the default configuration as [__init__] computes it,
    its cursor query having failed. *)
Definition default_init_engine : Engine := {|
  multiplier := SENS_MULTIPLIER DEFAULT_CONFIG;
  step_down := 1 / (SENS_RAMP_DOWN_MS DEFAULT_CONFIG / tick_ms DEFAULT_CONFIG);
  step_up := 1 / (SENS_RAMP_UP_MS DEFAULT_CONFIG / tick_ms DEFAULT_CONFIG);
  current_weight := 1;
  _running := false;
  last_pos := POINT.zero
|}.

Definition in_LONG_range (p : POINT.t) : Prop :=
  is_LONG (POINT.x p) /\ is_LONG (POINT.y p).

(** The sentence as written: the tracked position becomes the current
    position plus the correction [(rx, ry)] itself. *)
Definition last_pos_adds_exact_correction : Prop :=
  forall (e : Engine) (curr : POINT.t),
    current_weight e < INACTIVE_WEIGHT ->
    let dx := (POINT.x curr - POINT.x (last_pos e))%Z in
    let dy := (POINT.y curr - POINT.y (last_pos e))%Z in
    let rx := correction dx (current_weight e) in
    let ry := correction dy (current_weight e) in
    let res := counter_move (Some curr) e in
    dx <> 0%Z \/ dy <> 0%Z ->
    1 <= Py.abs rx \/ 1 <= Py.abs ry ->
    fst res = [_move_relative rx ry]
    /\ inject_Z (POINT.x (last_pos (snd res))) == inject_Z (POINT.x curr) + rx
    /\ inject_Z (POINT.y (last_pos (snd res))) == inject_Z (POINT.y curr) + ry.

(** The engine at weight 0.5 with the cursor last seen at (1000, 500). *)
Definition resting_engine : Engine :=
  set_last_pos (POINT.mk 1000 500) (damped default_init_engine).

(** The cursor rests at (1000, 500) throughout. *)
Definition rest_pos : POINT.t := POINT.mk 1000 500.

Definition tick_ok (t : Q) : Event := EvTick (mkTickEnv t t (Some rest_pos)).
Definition tick_failed (t : Q) : Event := EvTick (mkTickEnv t t None).

(** Four clicks 50 ms apart, then five ticks that ramp the weight from
    1.0 down to 0.5. *)
Definition clicks_then_ramp : list Event :=
  [click_at left (90 # 100); click_at left (95 # 100);
   click_at left (100 # 100); click_at left (105 # 100);
   tick_ok (1060 # 1000); tick_ok (1064 # 1000); tick_ok (1068 # 1000);
   tick_ok (1072 # 1000); tick_ok (1076 # 1000)].

(** ** Vocabulary of the further properties *)

(** An event that can record a click under the configuration [cfg]: a
    press of a trigger button, or a pass of the worker's burst. *)
Definition records_click (cfg : Config) (ev : Event) : bool :=
  match ev with
  | EvClick _ _ button pressed _ => pressed && is_trigger cfg button
  | EvWorkerUnit _ _ => true
  | _ => false
  end.

(** A tick whose cursor query succeeds and reads [p]. *)
Definition reads_cursor_at (p : POINT.t) (ev : Event) : Prop :=
  match ev with
  | EvTick env => cursor env = Some p
  | _ => True
  end.

(** No controller call of the burst raises. *)
Definition controller_never_raises (units : nat -> UnitEnv) : Prop :=
  forall j, press_raises (units j) = false
            /\ release_raises (units j) = false.

(** [stop()] is first seen by the test of pass [k] of a burst of [n]
    passes starting at pass [i] ([k = n]: it is not seen at all). *)
Definition stop_seen_at (units : nat -> UnitEnv) (i k n : nat) : Prop :=
  (k <= n)%nat
  /\ (forall j, (i <= j < i + k)%nat -> stop_requested (units j) = false)
  /\ ((k < n)%nat -> stop_requested (units (i + k)%nat) = true).

(** [k] synthetic clicks of [button]. *)
Definition click_pairs (button : Button) (k : nat) : list Action :=
  concat (repeat [Press button; Release button] k).

(** What a burst for [button] may do: sleep a non-negative time before a
    press, hold for 10 to 20 ms, press and release [button]. *)
Definition burst_action_ok (button : Button) (a : Action) : Prop :=
  match a with
  | Sleep BeforePress d => 0 <= d
  | Sleep Hold h => 1 # 100 <= h /\ h < 2 # 100
  | Press b => b = button
  | Release b => b = button
  end.

Definition is_press (a : Action) : bool :=
  match a with
  | Press _ => true
  | _ => false
  end.

(** The same configuration, state and system with another value under
    the key ["HARD_CPS_LIMIT"]. *)
Definition set_HARD_CPS_LIMIT (v : Q) (cfg : Config) : Config :=
  mkConfig v (TARGET_CPS_RANGE cfg) (TRIGGER_BUTTONS cfg)
           (DOUBLE_CLICK_THRESHOLD cfg) (CPS_SLOWDOWN_THRESHOLD cfg)
           (SENS_MULTIPLIER cfg) (SENS_RAMP_DOWN_MS cfg)
           (SENS_RAMP_UP_MS cfg) (CPS_WINDOW_SECONDS cfg)
           (STALE_TIMEOUT_MS cfg) (POLLING_RATE_HZ cfg).

Definition Sim_set_hard (v : Q) (s : Sim) : Sim :=
  mkSim (set_HARD_CPS_LIMIT v (config s)) (_is_listening s) (_simulating s)
        (_work_queue s) (total_click_history s) (last_click_time s).

Definition World_set_hard (v : Q) (w : World) : World :=
  mkWorld (Sim_set_hard v (sim w)) (emitted w).

Definition System_set_hard (v : Q) (sys : System) : System :=
  mkSystem (World_set_hard v (world sys)) (engine sys) (moves sys)
           (listener_exn sys) (damper_exn sys).

(** The damping thread's first statement, [self._running = True]. *)
Definition is_loop_start (ev : Event) : bool :=
  match ev with
  | EvLoopStart => true
  | _ => false
  end.

(** The system once [start()] has returned, the damping thread not having
    run its first statement yet: [_running] is as [__init__] left it. *)
Definition System_before_loop (cfg : Config) (e : Engine) : System := {|
  world := mkWorld (start (Sim_init cfg)) [];
  engine := e;
  moves := [];
  listener_exn := None;
  damper_exn := None
|}.

(** A tick that finds the cursor 10 pixels to the right of [rest_pos]. *)
Definition tick_moved (t : Q) : Event :=
  EvTick (mkTickEnv t t (Some (POINT.mk 1010 500))).

(** Four clicks, then [stop()] before the damping thread has run its
    first statement; the thread then starts and runs six passes. *)
Definition stop_then_loop_start : list Event :=
  [click_at left (90 # 100); click_at left (95 # 100);
   click_at left (100 # 100); click_at left (105 # 100);
   EvStop; EvLoopStart;
   tick_ok (1060 # 1000); tick_ok (1064 # 1000); tick_ok (1068 # 1000);
   tick_ok (1072 # 1000); tick_ok (1076 # 1000); tick_moved (1080 # 1000)].

(** ** Vocabulary of the interleaved callback *)

(** The sentence as written: whenever the callback is about to put its
    signal (line 198), [_simulating] is false. *)
Definition never_put_while_simulating : Prop :=
  forall (cfg : Config) (evs : list Fine.Event) (button : Button)
         (clk : ClickClock),
    let st := Fine.run evs (Fine.boot cfg) in
    Fine.listener st = Fine.FoundEmpty button clk ->
    _simulating (Fine.shared st) = false.

(** Presses at 0.00 and 0.05 s leave a signal pending. A third press at
    0.10 s has read [_simulating] as false (line 190) when the worker
    takes the pending signal and sets the flag; the callback then goes on
    to line 198. *)
Definition flag_race : list Fine.Event :=
  Fine.press_at left 0 ++ Fine.press_at left (5 # 100)
  ++ Fine.press_begun left (10 # 100) 3
  ++ [Fine.WorkerGet; Fine.WorkerSimulating true]
  ++ repeat Fine.Listen 4.

(** A press at 0.69 s, then a press at 1.00 s that has passed the length
    test of line 194 when the damper evicts the first timestamp. *)
Definition eviction_race : list Fine.Event :=
  Fine.press_at left (69 # 100)
  ++ Fine.press_begun left 1 4
  ++ [Fine.DamperPopleft 1; Fine.Listen].

(** The callback of [button] and [clk] has passed its test of
    [_simulating] (line 190) and has not returned. *)
Definition past_flag_test (button : Button) (clk : ClickClock)
    (l : Fine.Listener) : Prop :=
  match l with
  | Fine.NotSimulating b c | Fine.TwoRetained b c | Fine.HavePrev b c _
  | Fine.InThreshold b c | Fine.FoundEmpty b c => b = button /\ c = clk
  | _ => False
  end.

(** The presses of [eviction_race] with the damper's evictions at other
    statements: one before the second press is delivered, one after its
    read of line 195; the worker records a synthetic click meanwhile. *)
Definition evictions_elsewhere : list Fine.Event :=
  Fine.press_at left (60 # 100)
  ++ Fine.press_at left (69 # 100)
  ++ [Fine.DamperPopleft 1]
  ++ Fine.press_begun left 1 4
  ++ [Fine.WorkerGet; Fine.WorkerSimulating true; Fine.WorkerStamp 1;
      Fine.Listen; Fine.DamperPopleft 1; Fine.WorkerAppend]
  ++ repeat Fine.Listen 3.

(** A press whose clock reading of line 159 is 1.000 s, and a synthetic
    click whose reading is 1.001 s. In the first run the worker stores
    and appends its reading before the callback stores its own; in the
    second the worker stores its reading between the callback's store
    and the callback's append. *)
Definition stamp_overtaken : list Fine.Event :=
  Fine.press_begun left 1 0
  ++ [Fine.WorkerStamp (1001 # 1000); Fine.WorkerAppend;
      Fine.Listen; Fine.Listen].

Definition stamp_overwritten : list Fine.Event :=
  Fine.press_begun left 1 1
  ++ [Fine.WorkerStamp (1001 # 1000); Fine.Listen; Fine.WorkerAppend].

(** What the callback keeps true of the queue, at every statement. *)
Record queue_safe (st : Fine.State) : Prop := {
  safe_length : (length (_work_queue (Fine.shared st)) <= 1)%nat;
  safe_put : forall button clk,
      Fine.listener st = Fine.FoundEmpty button clk ->
      _work_queue (Fine.shared st) = []
}.

(** What the callback keeps true of the history when nothing evicts. *)
Record index_safe (st : Fine.State) : Prop := {
  safe_raised : Fine.raised st = None;
  safe_index : forall button clk,
      Fine.listener st = Fine.TwoRetained button clk ->
      (1 <? length (total_click_history (Fine.shared st)))%nat = true
}.

(** The parts of the shared state the callback only reads. *)
Definition same_flags (s s' : Sim) : Prop :=
  config s' = config s
  /\ _is_listening s' = _is_listening s
  /\ _simulating s' = _simulating s.

(** * Properties *)

(** ** Python primitives *)

Lemma Qlt_bool_iff (a b : Q) : Py.Qlt_bool a b = true <-> a < b.
Proof.
  unfold Py.Qlt_bool. rewrite negb_true_iff.
  split; intro H.
  - apply Qnot_le_lt. intro Hle. apply Qle_bool_iff in Hle. congruence.
  - destruct (Qle_bool b a) eqn:E; [|reflexivity].
    apply Qle_bool_iff in E. exfalso. apply (Qlt_not_le _ _ H E).
Qed.

Lemma Qlt_bool_false_iff (a b : Q) : Py.Qlt_bool a b = false <-> b <= a.
Proof.
  unfold Py.Qlt_bool. rewrite negb_false_iff. apply Qle_bool_iff.
Qed.

Lemma Qgt_bool_iff (a b : Q) : Py.Qgt_bool a b = true <-> b < a.
Proof. apply Qlt_bool_iff. Qed.

Lemma Qgt_bool_false_iff (a b : Q) : Py.Qgt_bool a b = false <-> a <= b.
Proof. apply Qlt_bool_false_iff. Qed.

Lemma Qle_bool_false_iff (a b : Q) : Qle_bool a b = false <-> b < a.
Proof.
  rewrite <- Qlt_bool_iff. unfold Py.Qlt_bool.
  now rewrite negb_true_iff.
Qed.

Lemma max_cases (a b : Q) :
  (a < b /\ Py.max a b = b) \/ (b <= a /\ Py.max a b = a).
Proof.
  unfold Py.max. destruct (Py.Qgt_bool b a) eqn:E.
  - left. apply Qgt_bool_iff in E. auto.
  - right. apply Qgt_bool_false_iff in E. auto.
Qed.

Lemma min_cases (a b : Q) :
  (b < a /\ Py.min a b = b) \/ (a <= b /\ Py.min a b = a).
Proof.
  unfold Py.min. destruct (Py.Qlt_bool b a) eqn:E.
  - left. apply Qlt_bool_iff in E. auto.
  - right. apply Qlt_bool_false_iff in E. auto.
Qed.

Lemma truediv_ok (a b : Q) : ~ b == 0 -> Py.truediv a b = Py.Ok (a / b).
Proof.
  intro H. unfold Py.truediv.
  destruct (Qeq_bool b 0) eqn:E; [|reflexivity].
  apply Qeq_bool_iff in E. contradiction.
Qed.

Lemma truediv_zero (a b : Q) :
  b == 0 -> Py.truediv a b = Py.Raise Py.ZeroDivisionError.
Proof.
  intro H. unfold Py.truediv. apply Qeq_bool_iff in H. now rewrite H.
Qed.

(** ** The rate window *)

Section RateWindow.

Variables now window : Q.

Lemma evict_split (h : list Q) :
  exists evicted,
    h = evicted ++ evict now window h
    /\ Forall (stale now window) evicted.
Proof.
  induction h as [|t rest IH]; simpl.
  - exists []. split; [reflexivity | constructor].
  - destruct (Py.Qgt_bool (now - t) window) eqn:E.
    + destruct IH as [ev [Heq Hall]].
      exists (t :: ev). split.
      * simpl. now rewrite <- Heq.
      * constructor; [now apply Qgt_bool_iff in E | exact Hall].
    + exists []. split; [reflexivity | constructor].
Qed.

Lemma evict_head (h : list Q) (t : Q) (rest : list Q) :
  evict now window h = t :: rest -> now - t <= window.
Proof.
  induction h as [|a h' IH]; simpl; [discriminate|].
  destruct (Py.Qgt_bool (now - a) window) eqn:E.
  - exact IH.
  - intro H. injection H as -> _. now apply Qgt_bool_false_iff in E.
Qed.

Lemma evict_length (h : list Q) :
  (length (evict now window h) <= length h)%nat.
Proof.
  induction h as [|a h' IH]; simpl; [lia|].
  destruct (Py.Qgt_bool (now - a) window); simpl; lia.
Qed.

(** On timestamps in recording order the prefix trim keeps exactly the
    timestamps inside the window. *)
Lemma evict_ascending_filter (h : list Q) :
  ascending h -> evict now window h = filter (fresh_bool now window) h.
Proof.
  induction h as [|t rest IH]; simpl; [reflexivity|].
  intros [Hle Hasc]. unfold fresh_bool at 1.
  unfold Py.Qgt_bool, Py.Qlt_bool.
  destruct (Qle_bool (now - t) window) eqn:E; simpl.
  - f_equal. apply Qle_bool_iff in E.
    clear IH Hasc. induction Hle as [|u l Hu _ IHl]; simpl; [reflexivity|].
    unfold fresh_bool at 1.
    assert (Hf : Qle_bool (now - u) window = true).
    { apply Qle_bool_iff. lra. }
    rewrite Hf. now f_equal.
  - now apply IH.
Qed.

End RateWindow.

(** C2. For every history and every query time, with a non-zero window,
    [get_total_cps] splits the history into an evicted prefix, every
    timestamp of which has [now - t > W], and the retained rest, whose
    first timestamp (if any) has [now - t <= W]; it returns [0.0] when
    nothing is retained and [count / W] otherwise; the retained count is
    not larger than the count before the call. *)
Theorem get_total_cps_evicts_prefix (now : Q) (s : Sim) :
  ~ CPS_WINDOW_SECONDS (config s) == 0 ->
  let W := CPS_WINDOW_SECONDS (config s) in
  let before := total_click_history s in
  let retained := total_click_history (snd (get_total_cps now s)) in
  (exists evicted,
      before = evicted ++ retained /\ Forall (stale now W) evicted)
  /\ (forall t rest, retained = t :: rest -> now - t <= W)
  /\ fst (get_total_cps now s)
     = Py.Ok (match retained with
              | [] => 0
              | _ :: _ => inject_Z (Z.of_nat (length retained)) / W
              end)
  /\ (length retained <= length before)%nat.
Proof.
  intros HW W before retained.
  assert (Hret : retained = evict now W before).
  { unfold retained, get_total_cps. fold W. fold before.
    destruct (evict now W before); reflexivity. }
  rewrite Hret. repeat split.
  - apply evict_split.
  - apply evict_head.
  - unfold get_total_cps. fold W. fold before.
    destruct (evict now W before) as [|t rest]; simpl; [reflexivity|].
    now apply truediv_ok.
  - apply evict_length.
Qed.

Lemma get_total_cps_evicts_prefix_witness :
  ~ CPS_WINDOW_SECONDS (config scenario_sim) == 0
  /\ fst (get_total_cps (20 # 100) scenario_sim)
     = Py.Ok (inject_Z 5 / (3 # 10)).
Proof.
  assert (H : ~ CPS_WINDOW_SECONDS (config scenario_sim) == 0)
    by (intro E; discriminate E).
  split; [exact H|].
  exact (proj1 (proj2 (proj2
           (get_total_cps_evicts_prefix (20 # 100) scenario_sim H)))).
Defined.

(** ** The trigger detector *)

Lemma index_neg2_snoc {A : Type} (h : list A) (prev t : A) :
  Py.index_neg2 ((h ++ [prev]) ++ [t]) = Py.Ok prev.
Proof.
  unfold Py.index_neg2. now rewrite !rev_unit.
Qed.

Lemma length_snoc_gt1 {A : Type} (h : list A) (prev t : A) :
  (1 <? length ((h ++ [prev]) ++ [t]))%nat = true.
Proof.
  apply Nat.ltb_lt. rewrite !length_app. simpl. lia.
Qed.

(** A press of a trigger button records the click first. *)
Lemma _on_click_qualifying x y button clk s :
  is_trigger (config s) button = true ->
  _on_click x y button true clk s
  = let s1 := register_click_event (t_register clk) s in
    if _simulating s1 then (Py.Ok tt, s1)
    else if (1 <? length (total_click_history s1))%nat then
      match Py.index_neg2 (total_click_history s1) with
      | Py.Raise e => (Py.Raise e, s1)
      | Py.Ok prev_time =>
          if Qle_bool (t_check clk - prev_time)
                      (DOUBLE_CLICK_THRESHOLD (config s1)) then
            if match _work_queue s1 with [] => true | _ => false end then
              (Py.Ok tt,
               set_work_queue (_work_queue s1 ++ [(button, t_payload clk)]) s1)
            else (Py.Ok tt, s1)
          else (Py.Ok tt, s1)
      end
    else (Py.Ok tt, s1).
Proof.
  intro H. unfold _on_click. now rewrite H.
Qed.

(** What [_on_click] can do to the work queue: nothing, or one [put] on
    an empty queue while [_simulating] is false. *)
Lemma _on_click_queue x y button pressed clk s :
  let s' := snd (_on_click x y button pressed clk s) in
  _work_queue s' = _work_queue s
  \/ (_work_queue s = [] /\ _simulating s = false
      /\ _work_queue s' = [(button, t_payload clk)]).
Proof.
  unfold _on_click.
  destruct (negb pressed || negb (is_trigger (config s) button));
    [left; reflexivity|].
  simpl. destruct (_simulating s) eqn:Hsim; [left; reflexivity|].
  destruct (1 <? length (total_click_history s ++ [t_register clk]))%nat;
    [|left; reflexivity].
  destruct (Py.index_neg2 _); [|left; reflexivity].
  destruct (Qle_bool _ _); [|left; reflexivity].
  destruct (_work_queue s) eqn:Hq; simpl.
  - right. auto.
  - left. exact Hq.
Qed.

Lemma _on_click_keeps_simulating x y button pressed clk s :
  _simulating (snd (_on_click x y button pressed clk s)) = _simulating s.
Proof.
  unfold _on_click.
  destruct (negb pressed || negb (is_trigger (config s) button));
    [reflexivity|].
  simpl. destruct (_simulating s) eqn:Hsim; [exact Hsim|].
  destruct (1 <? _)%nat; [|exact Hsim].
  destruct (Py.index_neg2 _); [|exact Hsim].
  destruct (Qle_bool _ _); [|exact Hsim].
  destruct (_work_queue s); exact Hsim.
Qed.

(** ** The worker's effect on the shared state *)

Lemma queue_get_length (s : Sim) :
  (length (_work_queue (snd (queue_get s))) <= length (_work_queue s))%nat.
Proof.
  unfold queue_get. destruct (_work_queue s) eqn:E; simpl.
  - rewrite E. simpl. lia.
  - lia.
Qed.

(** Unfolding one pass of the burst into its five outcomes. *)
Lemma burst_unit_cases (button : Button) (u : UnitEnv) (w : World) :
  let cfg := config (sim w) in
  match pre_click_sleep cfg (raw_delay u) with
  | Py.Raise ex => burst_unit button u w = (Py.Raise ex, w)
  | Py.Ok d =>
      let w1 := emit (Sleep BeforePress d) w in
      if press_raises u then
        burst_unit button u w = (Py.Raise Py.ControllerError, w1)
      else
        let w2 := on_sim (register_click_event (t_click u))
                         (emit (Press button) w1) in
        let w3 := emit (Sleep Hold (Py.uniform (1 # 100) (2 # 100)
                                               (raw_hold u))) w2 in
        if release_raises u then
          burst_unit button u w = (Py.Raise Py.ControllerError, w3)
        else
          burst_unit button u w = (Py.Ok tt, emit (Release button) w3)
  end.
Proof.
  unfold burst_unit, Py.seq, Py.lift, Py.modify,
    controller_press, controller_release.
  destruct (pre_click_sleep _ _); [|reflexivity].
  destruct (press_raises u); [reflexivity|].
  destruct (release_raises u); reflexivity.
Qed.

Lemma burst_unit_queue (button : Button) (u : UnitEnv) (w : World) :
  _work_queue (sim (snd (burst_unit button u w))) = _work_queue (sim w).
Proof.
  pose proof (burst_unit_cases button u w) as H. cbv zeta in H.
  destruct (pre_click_sleep _ _); [|now rewrite H].
  destruct (press_raises u); [now rewrite H|].
  destruct (release_raises u); now rewrite H.
Qed.

Lemma get_total_cps_queue (now : Q) (s : Sim) :
  _work_queue (snd (get_total_cps now s)) = _work_queue s.
Proof.
  unfold get_total_cps. destruct (evict _ _ _); reflexivity.
Qed.

Lemma loop_pass_queue (env : TickEnv) (e : Engine) (s : Sim) :
  _work_queue (snd (loop_pass env e s)) = _work_queue s.
Proof.
  unfold loop_pass.
  pose proof (get_total_cps_queue (t_cps env) s) as H.
  destruct (get_total_cps (t_cps env) s) as [[c|ex] s']; simpl in *.
  - destruct (counter_move _ _). exact H.
  - exact H.
Qed.

(** ** Invariants of the running system *)

Lemma run_invariant (P : System -> Prop) :
  (forall ev sys, P sys -> P (step ev sys)) ->
  forall evs sys, P sys -> P (run evs sys).
Proof.
  intros Hstep evs. induction evs as [|ev evs IH]; intros sys H; simpl.
  - exact H.
  - apply IH, Hstep, H.
Qed.

Lemma System_start_boot cfg os sys :
  System_start cfg os = Py.Ok sys ->
  exists e, Engine_init cfg os = Py.Ok e /\ sys = System_boot cfg e.
Proof.
  unfold System_start, Py.bind.
  destruct (Engine_init cfg os) as [e|ex]; [|discriminate].
  intro H. injection H as <-. now exists e.
Qed.

(** ** Double-click detection *)

(** C6, as written, fails: a third click 50 ms after the second, before
    the worker has taken the pending signal, enqueues nothing. *)
Lemma double_click_always_enqueues_fails : ~ double_click_always_enqueues.
Proof.
  intro H.
  specialize (H [click_at left 0; click_at left (5 # 100)]
                0%Z 0%Z left (mkClickClock (10 # 100) (10 # 100) (10 # 100))
                [0] (5 # 100)).
  cbv zeta in H.
  assert (Hq : forall q : list Signal,
             [(left, 5 # 100)] = [(left, 5 # 100)] ++ q -> q = []).
  { intros q E. destruct q; [reflexivity|discriminate]. }
  specialize (Hq [(left, 10 # 100)]).
  assert (Hnil : [(left, 10 # 100)] = @nil Signal -> False) by discriminate.
  apply Hnil, Hq.
  apply H; try reflexivity.
  discriminate.
Qed.

(** C6 (amended). For a press of a trigger button with [_simulating]
    false, the gap being measured from the clock reading of the threshold
    test to the previous retained timestamp: with at least two timestamps
    retained and the gap within the threshold, exactly one signal is
    enqueued if no signal is pending, and none if one is; with the gap
    above the threshold none is enqueued; with fewer than two retained
    timestamps nothing is enqueued; and the callback never raises. *)
Theorem double_click_enqueues_when_none_pending
    (x y : Z) (button : Button) (clk : ClickClock) (s : Sim) :
  is_trigger (config s) button = true ->
  _simulating s = false ->
  let s' := snd (_on_click x y button true clk s) in
  let gap prev := t_check clk - prev in
  let threshold := DOUBLE_CLICK_THRESHOLD (config s) in
  (forall h prev,
      total_click_history s = h ++ [prev] -> gap prev <= threshold ->
      (_work_queue s = [] -> _work_queue s' = [(button, t_payload clk)])
      /\ (_work_queue s <> [] -> _work_queue s' = _work_queue s))
  /\ (forall h prev,
        total_click_history s = h ++ [prev] -> threshold < gap prev ->
        _work_queue s' = _work_queue s)
  /\ (total_click_history s = [] -> _work_queue s' = _work_queue s)
  /\ total_click_history s' = total_click_history s ++ [t_register clk]
  /\ fst (_on_click x y button true clk s) = Py.Ok tt.
Proof.
  intros Htrig Hsim s' gap threshold. subst s'.
  rewrite (_on_click_qualifying x y button clk s Htrig).
  cbv zeta. unfold register_click_event.
  cbn [_simulating total_click_history config _work_queue].
  rewrite Hsim. fold threshold.
  split; [|split; [|split; [|split]]].
  - intros h prev Hh Hgap.
    rewrite Hh, length_snoc_gt1, index_neg2_snoc.
    apply Qle_bool_iff in Hgap. fold (gap prev). rewrite Hgap.
    split; intro Hq.
    + rewrite Hq. reflexivity.
    + destruct (_work_queue s); [congruence|reflexivity].
  - intros h prev Hh Hgap.
    rewrite Hh, length_snoc_gt1, index_neg2_snoc.
    apply Qle_bool_false_iff in Hgap. fold (gap prev). rewrite Hgap.
    reflexivity.
  - intro Hh. rewrite Hh. reflexivity.
  - destruct (1 <? _)%nat; [|reflexivity].
    destruct (Py.index_neg2 _); [|reflexivity].
    destruct (Qle_bool _ _); [|reflexivity].
    destruct (_work_queue s); reflexivity.
  - destruct (total_click_history s) as [|a l _] using rev_ind;
      [reflexivity|].
    rewrite length_snoc_gt1, index_neg2_snoc.
    destruct (Qle_bool _ _); [|reflexivity].
    destruct (_work_queue s); reflexivity.
Qed.

Lemma double_click_enqueues_when_none_pending_witness :
  is_trigger (config one_click_sim) left = true
  /\ _simulating one_click_sim = false
  /\ _work_queue
       (snd (_on_click 0 0 left true
               (mkClickClock (10 # 100) (10 # 100) (10 # 100)) one_click_sim))
     = [(left, 10 # 100)].
Proof.
  split; [reflexivity|]. split; [reflexivity|].
  refine (proj1 (proj1 (double_click_enqueues_when_none_pending
                   0 0 left (mkClickClock (10 # 100) (10 # 100) (10 # 100))
                   one_click_sim eq_refl eq_refl) [] 0 eq_refl _) eq_refl).
  discriminate.
Defined.

(** ** The burst *)

Lemma burst_loop_shape (button : Button) (units : nat -> UnitEnv) :
  forall (n i : nat) (w : World),
  exists pairs tail,
    burst_shape button units n w (burst_loop button units i n w) pairs tail.
Proof.
  induction n as [|n IH]; intros i w.
  - exists [], []. split; shape_easy.
  - cbn [burst_loop].
    set (w0 := if stop_requested (units i) then on_sim stop w else w).
    assert (He : emitted w0 = emitted w)
      by (unfold w0; destruct (stop_requested (units i)); reflexivity).
    assert (Hc : config (sim w0) = config (sim w))
      by (unfold w0; destruct (stop_requested (units i)); reflexivity).
    assert (Hs : _simulating (sim w0) = _simulating (sim w))
      by (unfold w0; destruct (stop_requested (units i)); reflexivity).
    destruct (negb (_is_listening (sim w0))).
    { exists [], []. split; shape_easy. }
    unfold Py.seq at 1.
    pose proof (burst_unit_cases button (units i) w0) as Hu. cbv zeta in Hu.
    destruct (pre_click_sleep (config (sim w0)) (raw_delay (units i)))
      as [d|ex] eqn:Hd.
    2:{ rewrite Hu. exists [], []. split; shape_easy. }
    assert (Hsd : sampled (config (sim w)) d)
      by (exists (raw_delay (units i)); now rewrite <- Hc).
    destruct (press_raises (units i)).
    { rewrite Hu. exists [], [Sleep BeforePress d].
      split; shape_easy; try (now rewrite He).
      right. left. now exists d. }
    destruct (release_raises (units i)) eqn:Hrel.
    { rewrite Hu.
      exists [], [Sleep BeforePress d; Press button;
                  Sleep Hold (Py.uniform (1 # 100) (2 # 100)
                                         (raw_hold (units i)))].
      split; shape_easy;
        try (rewrite He, <- !app_assoc; reflexivity).
      right. right. eexists d, _, i. auto. }
    rewrite Hu.
    match goal with
    | |- context [burst_loop button units (S i) n ?w3] =>
        destruct (IH (S i) w3) as [pairs [tail Hsh]]
    end.
    destruct Hsh as [H1 H2 Hcut H3 H4 H5 H6 H7].
    simpl in H1, H3, H4, H6, H7.
    exists ((d, Py.uniform (1 # 100) (2 # 100) (raw_hold (units i))) :: pairs),
           tail.
    split.
    + rewrite H1, He. simpl. rewrite <- !app_assoc. reflexivity.
    + simpl. lia.
    + intro Ht. specialize (Hcut Ht). simpl. lia.
    + constructor; [exact Hsd | now rewrite <- Hc].
    + now rewrite <- Hc.
    + exact H5.
    + now rewrite H6.
    + now rewrite H7.
Qed.

(** The worker's burst in terms of the loop. *)
Lemma worker_burst_unfold (button : Button) (env : BurstEnv) (w : World) :
  worker_burst button env w
  = let res := burst_loop button (units env) 0
                 (Z.to_nat (clicks_to_add env))
                 (on_sim (set_simulating true) w) in
    (fst res, on_sim (set_simulating false) (snd res)).
Proof.
  unfold worker_burst, Py.seq, Py.modify, Py.try_finally.
  destruct (burst_loop _ _ _ _ _); reflexivity.
Qed.

(** While the loop runs the flag stays as line 207 set it: only the
    [finally] clears it. *)
Lemma burst_loop_keeps_simulating button units i n w :
  _simulating (sim (snd (burst_loop button units i n w)))
  = _simulating (sim w).
Proof.
  destruct (burst_loop_shape button units n i w) as [pairs [tail H]].
  apply (shape_simulating _ _ _ _ _ _ _ H).
Qed.

(** C3. Whatever the burst meets (any stop requests, any random draws,
    any exception raised by the delay computation or by the controller),
    [_simulating] is false when the body of the worker loop is left. *)
Theorem simulating_false_after_burst
    (button : Button) (env : BurstEnv) (w : World) :
  _simulating (sim (snd (worker_burst button env w))) = false.
Proof.
  rewrite worker_burst_unfold. reflexivity.
Qed.

Example burst_completes :
  let res := worker_burst left (mkBurstEnv 0 (fun _ => quiet_unit))
                          (listening_world DEFAULT_CONFIG) in
  fst res = Py.Ok tt
  /\ clicks_of (emitted (snd res))
     = [Press left; Release left; Press left; Release left]
  /\ _simulating (sim (snd res)) = false.
Proof. repeat split. Qed.

Example burst_stopped_early :
  let res := worker_burst left
               (mkBurstEnv 2 (fun i => match i with
                                       | O => quiet_unit
                                       | _ => stopping_unit
                                       end))
               (listening_world DEFAULT_CONFIG) in
  fst res = Py.Ok tt
  /\ clicks_of (emitted (snd res)) = [Press left; Release left]
  /\ _is_listening (sim (snd res)) = false
  /\ _simulating (sim (snd res)) = false.
Proof. repeat split. Qed.

Example burst_raises :
  let res := worker_burst left (mkBurstEnv 1 (fun _ => failing_unit))
                          (listening_world DEFAULT_CONFIG) in
  fst res = Py.Raise Py.ControllerError
  /\ clicks_of (emitted (snd res)) = []
  /\ _simulating (sim (snd res)) = false.
Proof. repeat split. Qed.

(** ** Burst size and pre-click delays *)

Lemma randint_range (a b raw : Z) :
  (a <= b)%Z -> (a <= Py.randint a b raw <= b)%Z.
Proof.
  intro H. unfold Py.randint.
  pose proof (Z.mod_pos_bound raw (b - a + 1)). lia.
Qed.

Lemma random_range (raw : Z) : 0 <= Py.random raw /\ Py.random raw < 1.
Proof.
  unfold Py.random, Qle, Qlt. simpl.
  pose proof (Z.mod_pos_bound raw 9007199254740992). lia.
Qed.

Lemma uniform_range (a b : Q) (raw : Z) :
  a <= b -> a <= Py.uniform a b raw /\ Py.uniform a b raw <= b.
Proof.
  intro H. unfold Py.uniform.
  destruct (random_range raw) as [H0 H1].
  set (u := Py.random raw) in *. split; nra.
Qed.

Lemma max_0_monotone (a b : Q) : a <= b -> Py.max 0 a <= Py.max 0 b.
Proof.
  intro H.
  destruct (max_cases 0 a) as [[? ->]|[? ->]];
    destruct (max_cases 0 b) as [[? ->]|[? ->]]; lra.
Qed.

Lemma inverse_antitone (low high : Q) :
  0 < low -> low <= high -> 1 / high <= 1 / low.
Proof.
  intros Hl Hh.
  assert (Hhigh : 0 < high) by lra.
  apply Qle_shift_div_l; [exact Hl|].
  setoid_replace (1 / high * low) with (low / high) by (field; lra).
  apply Qle_shift_div_r; [exact Hhigh|]. lra.
Qed.

Section DelayBounds.

Variable cfg : Config.
Let low := fst (TARGET_CPS_RANGE cfg).
Let high := snd (TARGET_CPS_RANGE cfg).

Hypothesis low_positive : 0 < low.
Hypothesis low_le_high : low <= high.

Lemma pre_click_sleep_returns (raw : Z) :
  pre_click_sleep cfg raw
  = Py.Ok (Py.max 0 (Py.uniform (1 / high) (1 / low) raw
                     - PROCESSING_OFFSET)).
Proof.
  unfold pre_click_sleep, Py.bind. fold low. fold high.
  rewrite (truediv_ok 1 high) by lra.
  rewrite (truediv_ok 1 low) by lra.
  reflexivity.
Qed.

Lemma sampled_in_bounds (d : Q) : sampled cfg d -> delay_in_bounds cfg d.
Proof.
  unfold delay_in_bounds. fold low. fold high.
  intros [raw H]. rewrite pre_click_sleep_returns in H.
  injection H as <-.
  destruct (uniform_range (1 / high) (1 / low) raw) as [H1 H2].
  { now apply inverse_antitone. }
  split; apply max_0_monotone; lra.
Qed.

End DelayBounds.

Lemma pre_click_sleeps_app (l1 l2 : list Action) :
  pre_click_sleeps (l1 ++ l2) = pre_click_sleeps l1 ++ pre_click_sleeps l2.
Proof. unfold pre_click_sleeps. apply flat_map_app. Qed.

Lemma pre_click_sleeps_units (button : Button) (pairs : list (Q * Q)) :
  pre_click_sleeps (flat_map (unit_actions button) pairs) = map fst pairs.
Proof.
  induction pairs as [|p pairs IH]; [reflexivity|].
  cbn [flat_map]. rewrite pre_click_sleeps_app, IH. reflexivity.
Qed.

Lemma clicks_of_app (l1 l2 : list Action) :
  clicks_of (l1 ++ l2) = clicks_of l1 ++ clicks_of l2.
Proof. unfold clicks_of. apply filter_app. Qed.

Lemma clicks_of_units (button : Button) (pairs : list (Q * Q)) :
  clicks_of (flat_map (unit_actions button) pairs)
  = concat (repeat [Press button; Release button] (length pairs)).
Proof.
  induction pairs as [|p pairs IH]; [reflexivity|].
  cbn [flat_map]. rewrite clicks_of_app, IH. reflexivity.
Qed.



(** C10. When no [release] call raises, whatever the stop requests, the
    random draws and the [press] calls do, what the burst emits is a run
    of complete passes (sleep, press, hold, release of the same button),
    at most [clicks_to_add] of them, followed at most by the sleep of a
    pass that was cut short before its press: every press is followed by
    its release within its pass. *)
Theorem press_followed_by_release
    (button : Button) (env : BurstEnv) (w : World) :
  (forall i, release_raises (units env i) = false) ->
  exists pairs tail,
    emitted (snd (worker_burst button env w))
    = emitted w ++ flat_map (unit_actions button) pairs ++ tail
    /\ (Z.of_nat (length pairs) <= clicks_to_add env)%Z
    /\ clicks_of tail = []
    /\ clicks_of (flat_map (unit_actions button) pairs ++ tail)
       = concat (repeat [Press button; Release button] (length pairs)).
Proof.
  intro Hrel.
  rewrite worker_burst_unfold. cbv zeta. cbn [snd emitted on_sim].
  destruct (burst_loop_shape button (units env)
              (Z.to_nat (clicks_to_add env)) 0
              (on_sim (set_simulating true) w)) as [pairs [tail H]].
  destruct H as [H1 H2 _ _ H4 _ _ _]. simpl in H1.
  exists pairs, tail.
  assert (Ht : clicks_of tail = []).
  { destruct H4 as [-> | [(d & _ & ->) | (d & h & j & _ & Hj & _)]].
    - reflexivity.
    - reflexivity.
    - rewrite Hrel in Hj. discriminate. }
  repeat split.
  - exact H1.
  - pose proof (randint_range 2 4 (raw_count env)) as Hn.
    unfold clicks_to_add in *. lia.
  - exact Ht.
  - rewrite clicks_of_app, Ht, app_nil_r. apply clicks_of_units.
Qed.

Lemma press_followed_by_release_witness :
  (forall i : nat,
      release_raises (units (mkBurstEnv 0 (fun _ => quiet_unit)) i) = false)
  /\ exists pairs tail,
       emitted (snd (worker_burst left (mkBurstEnv 0 (fun _ => quiet_unit))
                                  (listening_world DEFAULT_CONFIG)))
       = emitted (listening_world DEFAULT_CONFIG)
         ++ flat_map (unit_actions left) pairs ++ tail
       /\ (Z.of_nat (length pairs)
           <= clicks_to_add (mkBurstEnv 0 (fun _ => quiet_unit)))%Z
       /\ clicks_of tail = []
       /\ clicks_of (flat_map (unit_actions left) pairs ++ tail)
          = concat (repeat [Press left; Release left] (length pairs)).
Proof.
  assert (H : forall i : nat,
             release_raises (units (mkBurstEnv 0 (fun _ => quiet_unit)) i)
             = false) by reflexivity.
  split; [exact H|].
  exact (press_followed_by_release left (mkBurstEnv 0 (fun _ => quiet_unit))
           (listening_world DEFAULT_CONFIG) H).
Defined.

(** ** The damping weight *)

Lemma tick_ms_positive cfg : well_formed cfg -> 0 < tick_ms cfg.
Proof.
  intros [H _ _ _]. unfold tick_ms. apply Qlt_shift_div_l; lra.
Qed.

Lemma Engine_init_returns cfg os :
  well_formed cfg ->
  Engine_init cfg os
  = Py.Ok {| multiplier := SENS_MULTIPLIER cfg;
             step_down := 1 / (SENS_RAMP_DOWN_MS cfg / tick_ms cfg);
             step_up := 1 / (SENS_RAMP_UP_MS cfg / tick_ms cfg);
             current_weight := 1;
             _running := false;
             last_pos := snd (GetCursorPos os POINT.zero) |}.
Proof.
  intro Hwf. pose proof (tick_ms_positive cfg Hwf) as Ht.
  destruct Hwf as [H1 H2 H3 _].
  assert (Hd : 0 < SENS_RAMP_DOWN_MS cfg / tick_ms cfg)
    by (apply Qlt_shift_div_l; lra).
  assert (Hu : 0 < SENS_RAMP_UP_MS cfg / tick_ms cfg)
    by (apply Qlt_shift_div_l; lra).
  unfold Engine_init, polling_ms, Py.bind.
  rewrite (truediv_ok 1000 (POLLING_RATE_HZ cfg)) by lra.
  fold (tick_ms cfg).
  rewrite (truediv_ok (SENS_RAMP_DOWN_MS cfg) (tick_ms cfg)) by lra.
  rewrite (truediv_ok 1 (SENS_RAMP_DOWN_MS cfg / tick_ms cfg)) by lra.
  rewrite (truediv_ok (SENS_RAMP_UP_MS cfg) (tick_ms cfg)) by lra.
  rewrite (truediv_ok 1 (SENS_RAMP_UP_MS cfg / tick_ms cfg)) by lra.
  reflexivity.
Qed.

(** The steps of a well-formed configuration, in closed form. *)
Lemma step_down_value cfg :
  well_formed cfg ->
  1 / (SENS_RAMP_DOWN_MS cfg / tick_ms cfg)
  == tick_ms cfg / SENS_RAMP_DOWN_MS cfg.
Proof.
  intro Hwf. pose proof (tick_ms_positive cfg Hwf).
  destruct Hwf as [_ H2 _ _]. field. split; lra.
Qed.

Lemma step_up_value cfg :
  well_formed cfg ->
  1 / (SENS_RAMP_UP_MS cfg / tick_ms cfg)
  == tick_ms cfg / SENS_RAMP_UP_MS cfg.
Proof.
  intro Hwf. pose proof (tick_ms_positive cfg Hwf).
  destruct Hwf as [_ _ H3 _]. field. split; lra.
Qed.

(** One ramp step moves the weight toward the target and not past it. *)
Lemma ramp_toward_target (over : bool) (e : Engine) :
  0 <= step_down e -> 0 <= step_up e ->
  let target := target_weight over e in
  let w := current_weight e in
  let w' := current_weight (ramp over e) in
  (target <= w -> target <= w' /\ w' <= w)
  /\ (w <= target -> w <= w' /\ w' <= target).
Proof.
  intros Hd Hu target w w'. subst w'. unfold ramp. fold target. fold w.
  destruct (Py.Qgt_bool w target) eqn:Egt.
  - apply Qgt_bool_iff in Egt. cbn [set_current_weight current_weight].
    destruct (max_cases target (w - step_down e)) as [[? ->]|[? ->]];
      split; intro; split; lra.
  - apply Qgt_bool_false_iff in Egt.
    destruct (Py.Qlt_bool w target) eqn:Elt.
    + apply Qlt_bool_iff in Elt. cbn [set_current_weight current_weight].
      destruct (min_cases target (w + step_up e)) as [[? ->]|[? ->]];
        split; intro; split; lra.
    + apply Qlt_bool_false_iff in Elt. fold w. split; intro; split; lra.
Qed.

Lemma ramp_keeps_parameters (over : bool) (e : Engine) :
  multiplier (ramp over e) = multiplier e
  /\ step_down (ramp over e) = step_down e
  /\ step_up (ramp over e) = step_up e
  /\ last_pos (ramp over e) = last_pos e
  /\ _running (ramp over e) = _running e.
Proof.
  unfold ramp.
  destruct (Py.Qgt_bool _ _); [repeat split|].
  destruct (Py.Qlt_bool _ _); repeat split.
Qed.

Lemma ramp_in_range (over : bool) (e : Engine) :
  weight_in_range e -> weight_in_range (ramp over e).
Proof.
  intros [Hd Hu Hm Hlo Hhi].
  destruct (ramp_keeps_parameters over e) as (Em & Ed & Eu & _ & _).
  pose proof (ramp_toward_target over e Hd Hu) as Ht. cbv zeta in Ht.
  split; rewrite ?Em, ?Ed, ?Eu; auto.
  - unfold target_weight in Ht. destruct over; lra.
  - unfold target_weight in Ht. destruct over; lra.
Qed.

Lemma counter_move_keeps_weight (os : option POINT.t) (e : Engine) :
  let e' := snd (counter_move os e) in
  multiplier e' = multiplier e /\ step_down e' = step_down e
  /\ step_up e' = step_up e /\ current_weight e' = current_weight e
  /\ _running e' = _running e.
Proof.
  unfold counter_move.
  destruct (Py.Qlt_bool _ _); [|repeat split].
  destruct (GetCursorPos os POINT.zero) as [ok curr].
  destruct ok; [|repeat split].
  destruct (_ || _); [|repeat split].
  destruct (_ || _); repeat split.
Qed.

Lemma counter_move_in_range (os : option POINT.t) (e : Engine) :
  weight_in_range e -> weight_in_range (snd (counter_move os e)).
Proof.
  intros [Hd Hu Hm Hlo Hhi].
  destruct (counter_move_keeps_weight os e) as (Em & Ed & Eu & Ew & _).
  split; rewrite ?Em, ?Ed, ?Eu, ?Ew; assumption.
Qed.

Lemma loop_pass_engine (env : TickEnv) (e : Engine) (s : Sim) :
  snd (fst (loop_pass env e s)) = e
  \/ exists over,
       snd (fst (loop_pass env e s))
       = snd (counter_move (cursor env) (ramp over e)).
Proof.
  unfold loop_pass.
  destruct (get_total_cps (t_cps env) s) as [[c|ex] s']; [|now left].
  right. eexists.
  destruct (counter_move (cursor env) (ramp _ e)) eqn:E.
  simpl. now rewrite E.
Qed.

Lemma step_weight_in_range (ev : Event) (sys : System) :
  weight_in_range (engine sys) -> weight_in_range (engine (step ev sys)).
Proof.
  intro H. destruct ev as [x y b p clk| |b|b u|env| |]; simpl; auto.
  - destruct (_on_click x y b p clk (sim (world sys))). exact H.
  - destruct (damper_exn sys); [exact H|].
    destruct (_running (engine sys)); [|exact H].
    pose proof (loop_pass_engine env (engine sys) (sim (world sys))) as He.
    destruct (loop_pass env (engine sys) (sim (world sys)))
      as [[[ms|ex] e'] s']; simpl in *.
    + destruct He as [-> | [over ->]]; [exact H|].
      now apply counter_move_in_range, ramp_in_range.
    + destruct He as [-> | [over ->]]; [exact H|].
      now apply counter_move_in_range, ramp_in_range.
  - destruct H. split; assumption.
  - destruct H. split; assumption.
Qed.

(** C7. For a configuration with positive rate and ramp durations and a
    multiplier not above 1, the engine starts, and after any number of
    ticks, interleaved in any way with clicks, worker steps and [stop()],
    the weight lies in [multiplier, 1.0]; each ramp step moves the weight
    toward the current target and stops at it. *)
Theorem weight_between_multiplier_and_one
    (cfg : Config) (os : option POINT.t) (evs : list Event) :
  well_formed cfg ->
  exists sys0,
    System_start cfg os = Py.Ok sys0
    /\ let e := engine (run evs sys0) in
       multiplier e = SENS_MULTIPLIER cfg
       /\ multiplier e <= current_weight e
       /\ current_weight e <= 1
       /\ forall over,
            let target := target_weight over e in
            let w' := current_weight (ramp over e) in
            (target <= current_weight e
             -> target <= w' /\ w' <= current_weight e)
            /\ (current_weight e <= target
                -> current_weight e <= w' /\ w' <= target).
Proof.
  intro Hwf.
  unfold System_start, Py.bind. rewrite (Engine_init_returns cfg os Hwf).
  eexists. split; [reflexivity|].
  set (sys0 := mkSystem _ _ _ _ _).
  assert (Hinv : weight_in_range (engine (run evs sys0))
                 /\ multiplier (engine (run evs sys0)) = SENS_MULTIPLIER cfg).
  { apply (run_invariant
             (fun sys => weight_in_range (engine sys)
                         /\ multiplier (engine sys) = SENS_MULTIPLIER cfg)).
    - intros ev sys [Hr Hm]. split; [now apply step_weight_in_range|].
      rewrite <- Hm. clear Hr Hm.
      destruct ev as [x y b p clk| |b|b u|env| |]; simpl; auto.
      + destruct (_on_click x y b p clk (sim (world sys))). reflexivity.
      + destruct (damper_exn sys); [reflexivity|].
        destruct (_running (engine sys)); [|reflexivity].
        pose proof (loop_pass_engine env (engine sys) (sim (world sys))) as He.
        destruct (loop_pass env (engine sys) (sim (world sys)))
          as [[[ms|ex] e'] s']; simpl in *;
          (destruct He as [-> | [over ->]]; [reflexivity|]);
          destruct (counter_move_keeps_weight (cursor env)
                      (ramp over (engine sys))) as (-> & _);
          apply ramp_keeps_parameters.
    - pose proof (tick_ms_positive cfg Hwf) as Ht.
      pose proof (step_down_value cfg Hwf) as Hsd.
      pose proof (step_up_value cfg Hwf) as Hsu.
      destruct Hwf as [H1 H2 H3 H4].
      split; [|reflexivity].
      split; simpl; try lra.
      + rewrite Hsd. apply Qle_shift_div_l; lra.
      + rewrite Hsu. apply Qle_shift_div_l; lra. }
  destruct Hinv as [[Hd Hu Hm Hlo Hhi] Hmul].
  cbv zeta. repeat split; auto.
  all: pose proof (ramp_toward_target over _ Hd Hu) as Ht; cbv zeta in Ht.
  all: destruct Ht as [Ha Hb]; auto.
  - now apply Ha.
  - now apply Ha.
  - now apply Hb.
  - now apply Hb.
Qed.

Lemma default_well_formed : well_formed DEFAULT_CONFIG.
Proof. split; simpl; lra. Qed.

Lemma weight_between_multiplier_and_one_witness :
  well_formed DEFAULT_CONFIG
  /\ exists sys0,
       System_start DEFAULT_CONFIG (Some (POINT.mk 1000 500)) = Py.Ok sys0
       /\ multiplier (engine (run [EvTick (mkTickEnv 1 1 None)] sys0))
          <= current_weight (engine (run [EvTick (mkTickEnv 1 1 None)] sys0))
       /\ current_weight (engine (run [EvTick (mkTickEnv 1 1 None)] sys0))
          <= 1.
Proof.
  split; [exact default_well_formed|].
  destruct (weight_between_multiplier_and_one DEFAULT_CONFIG
              (Some (POINT.mk 1000 500)) [EvTick (mkTickEnv 1 1 None)]
              default_well_formed) as [sys0 [H0 [_ [H1 [H2 _]]]]].
  exists sys0. auto.
Defined.

(** ** The counter-movement *)

Lemma to_LONG_small (z : Z) : is_LONG z -> to_LONG z = z.
Proof.
  unfold is_LONG, to_LONG. intro H. rewrite Z.mod_small; lia.
Qed.

(** [int] of a float between two integers of opposite signs lies between
    them. *)
Lemma int_between (q : Q) (a b : Z) :
  (a <= 0 <= b)%Z -> inject_Z a <= q -> q <= inject_Z b ->
  (a <= Py.int q <= b)%Z.
Proof.
  intros Hab Ha Hb. destruct q as [n p]. unfold Py.int, Qle in *.
  simpl in *. rewrite Z.mul_1_r in *.
  destruct (Z.le_gt_cases 0 n) as [Hn|Hn].
  - rewrite Z.quot_div_nonneg by lia.
    split.
    + pose proof (Z.div_pos n (Z.pos p)). lia.
    + apply Z.div_le_upper_bound; lia.
  - replace n with (- (- n))%Z by lia.
    rewrite Z.quot_opp_l by lia.
    rewrite Z.quot_div_nonneg by lia.
    assert (0 <= - n / Z.pos p)%Z by (apply Z.div_pos; lia).
    assert (- n / Z.pos p <= - a)%Z by (apply Z.div_le_upper_bound; lia).
    lia.
Qed.

(** At a weight in [0, 1] the truncated correction points back from the
    current position toward the last one and does not overshoot it. *)
Lemma int_correction_between (d : Z) (w : Q) :
  0 <= w -> w <= 1 ->
  (0 <= d -> - d <= Py.int (correction d w) <= 0)%Z
  /\ (d <= 0 -> 0 <= Py.int (correction d w) <= - d)%Z.
Proof.
  intros H0 H1. unfold correction.
  split; intro Hd.
  - assert (Hq : 0 <= inject_Z d)
      by (change 0 with (inject_Z 0); now rewrite <- Zle_Qle).
    apply int_between; [lia| |].
    + rewrite inject_Z_opp. nra.
    + change (inject_Z 0) with 0. nra.
  - assert (Hq : inject_Z d <= 0)
      by (change 0 with (inject_Z 0); now rewrite <- Zle_Qle).
    apply int_between; [lia| |].
    + change (inject_Z 0) with 0. nra.
    + rewrite inject_Z_opp. nra.
Qed.




(** ** A failed cursor query *)

(** On a damping tick (weight below 0.995) whose query fails, no move is
    issued and nothing is raised; the last position becomes the buffer the
    failed call left untouched. *)
Lemma counter_move_failed_query (e : Engine) :
  current_weight e < INACTIVE_WEIGHT ->
  counter_move None e = ([], set_last_pos POINT.zero e).
Proof.
  intro Hw. unfold counter_move. apply Qlt_bool_iff in Hw.
  now rewrite Hw.
Qed.

(** C9, the code at the failing input. The cursor never moves. After the
    ramp, a tick whose query fails issues no move but leaves (0, 0) as the
    last position; the next tick, whose query succeeds, takes the whole
    position (1000, 500) for a displacement and moves the cursor by
    (-500, -250). Had the first of the two queries succeeded, no move
    would have been issued. *)
Theorem failed_query_then_spurious_move :
  exists sys0,
    System_start DEFAULT_CONFIG (Some rest_pos) = Py.Ok sys0
    /\ current_weight (engine (run clicks_then_ramp sys0)) == 5 # 10
    /\ last_pos (engine (run clicks_then_ramp sys0)) = rest_pos
    /\ moves (run (clicks_then_ramp ++ [tick_failed (1080 # 1000)]) sys0) = []
    /\ damper_exn
         (run (clicks_then_ramp ++ [tick_failed (1080 # 1000)]) sys0) = None
    /\ last_pos (engine (run (clicks_then_ramp
                              ++ [tick_failed (1080 # 1000)]) sys0))
       = POINT.zero
    /\ moves (run (clicks_then_ramp
                   ++ [tick_failed (1080 # 1000); tick_ok (1084 # 1000)])
                  sys0)
       = [((-500)%Z, (-250)%Z)]
    /\ moves (run (clicks_then_ramp
                   ++ [tick_ok (1080 # 1000); tick_ok (1084 # 1000)])
                  sys0)
       = [].
Proof.
  eexists. split; [reflexivity|].
  repeat split; vm_compute; reflexivity.
Qed.

(** * Further properties *)

(** ** The rate window, continued *)

Lemma evict_evict (now now' window : Q) (h : list Q) :
  now <= now' ->
  evict now' window (evict now window h) = evict now' window h.
Proof.
  intro Hle. induction h as [|t rest IH]; [reflexivity|].
  cbn [evict].
  destruct (Py.Qgt_bool (now - t) window) eqn:E.
  - rewrite IH.
    assert (E' : Py.Qgt_bool (now' - t) window = true).
    { apply Qgt_bool_iff. apply Qgt_bool_iff in E. lra. }
    now rewrite E'.
  - reflexivity.
Qed.

(** X1. Lazy eviction loses nothing: a query at [now] followed by a query
    at a later [now'] returns what the query at [now'] alone returns, and
    leaves the same state. *)
Theorem get_total_cps_after_earlier_query (now now' : Q) (s : Sim) :
  now <= now' ->
  get_total_cps now' (snd (get_total_cps now s)) = get_total_cps now' s.
Proof.
  intro Hle.
  assert (Hs : snd (get_total_cps now s)
               = set_history (evict now (CPS_WINDOW_SECONDS (config s))
                                    (total_click_history s)) s).
  { unfold get_total_cps. destruct (evict _ _ _); reflexivity. }
  rewrite Hs. unfold get_total_cps at 1 2.
  cbn [set_history config total_click_history].
  rewrite (evict_evict now now' _ _ Hle).
  reflexivity.
Qed.

Lemma get_total_cps_after_earlier_query_witness :
  20 # 100 <= 40 # 100
  /\ get_total_cps (40 # 100) (snd (get_total_cps (20 # 100) scenario_sim))
     = get_total_cps (40 # 100) scenario_sim.
Proof.
  assert (H : 20 # 100 <= 40 # 100) by (intro E; discriminate E).
  split; [exact H|].
  exact (get_total_cps_after_earlier_query (20 # 100) (40 # 100)
           scenario_sim H).
Defined.

(** X2. On a history in recording order and with a non-zero window,
    [get_total_cps] retains exactly the timestamps with [now - t <= W]
    and returns their number divided by [W]. *)
Theorem get_total_cps_counts_window (now : Q) (s : Sim) :
  ~ CPS_WINDOW_SECONDS (config s) == 0 ->
  ascending (total_click_history s) ->
  let W := CPS_WINDOW_SECONDS (config s) in
  let inside := filter (fresh_bool now W) (total_click_history s) in
  total_click_history (snd (get_total_cps now s)) = inside
  /\ exists rate,
       fst (get_total_cps now s) = Py.Ok rate
       /\ rate == inject_Z (Z.of_nat (length inside)) / W.
Proof.
  intros HW Hasc W inside.
  pose proof (evict_ascending_filter now W _ Hasc) as Hev.
  fold inside in Hev.
  unfold get_total_cps. fold W. rewrite Hev.
  destruct inside as [|t rest] eqn:E.
  - split; [reflexivity|]. exists 0. split; [reflexivity|].
    simpl. unfold Qdiv. now rewrite Qmult_0_l.
  - split; [reflexivity|]. eexists. split.
    + cbn [fst]. now apply truediv_ok.
    + reflexivity.
Qed.

Lemma get_total_cps_counts_window_witness :
  ~ CPS_WINDOW_SECONDS (config scenario_sim) == 0
  /\ ascending (total_click_history scenario_sim)
  /\ total_click_history (snd (get_total_cps (40 # 100) scenario_sim))
     = [10 # 100; 15 # 100; 20 # 100].
Proof.
  assert (H : ~ CPS_WINDOW_SECONDS (config scenario_sim) == 0)
    by (intro E; discriminate E).
  assert (Ha : ascending (total_click_history scenario_sim)).
  { simpl. repeat split; repeat constructor; intro E; discriminate E. }
  split; [exact H|]. split; [exact Ha|].
  exact (proj1 (get_total_cps_counts_window (40 # 100) scenario_sim H Ha)).
Defined.

Lemma get_total_cps_state (now : Q) (s : Sim) :
  snd (get_total_cps now s)
  = set_history (evict now (CPS_WINDOW_SECONDS (config s))
                       (total_click_history s)) s.
Proof.
  unfold get_total_cps. destruct (evict _ _ _); reflexivity.
Qed.

Lemma loop_pass_state (env : TickEnv) (e : Engine) (s : Sim) :
  snd (loop_pass env e s) = snd (get_total_cps (t_cps env) s).
Proof.
  unfold loop_pass.
  destruct (get_total_cps (t_cps env) s) as [[c|ex] s']; [|reflexivity].
  destruct (counter_move _ _). reflexivity.
Qed.

(** ** The click callback, continued *)

Lemma index_neg2_in_range {A : Type} (l : list A) :
  (1 <? length l)%nat = true -> exists a, Py.index_neg2 l = Py.Ok a.
Proof.
  intro H. apply Nat.ltb_lt in H. unfold Py.index_neg2.
  rewrite <- length_rev in H.
  destruct (rev l) as [|a [|b r]]; simpl in H; try lia.
  now exists b.
Qed.

(** A callback that no other thread interrupts returns. *)
Lemma _on_click_returns
    (x y : Z) (button : Button) (pressed : bool) (clk : ClickClock)
    (s : Sim) :
  fst (_on_click x y button pressed clk s) = Py.Ok tt.
Proof.
  unfold _on_click.
  destruct (negb pressed || negb (is_trigger (config s) button));
    [reflexivity|].
  cbv zeta. destruct (_simulating _); [reflexivity|].
  destruct (1 <? _)%nat eqn:Hlen; [|reflexivity].
  destruct (index_neg2_in_range _ Hlen) as [a ->].
  destruct (Qle_bool _ _); [|reflexivity].
  destruct (match _work_queue _ with [] => true | _ => false end);
    reflexivity.
Qed.

Lemma _on_click_config
    (x y : Z) (button : Button) (pressed : bool) (clk : ClickClock)
    (s : Sim) :
  config (snd (_on_click x y button pressed clk s)) = config s.
Proof.
  unfold _on_click.
  destruct (negb pressed || negb (is_trigger (config s) button));
    [reflexivity|].
  cbv zeta. destruct (_simulating _); [reflexivity|].
  destruct (1 <? _)%nat; [|reflexivity].
  destruct (Py.index_neg2 _); [|reflexivity].
  destruct (Qle_bool _ _); [|reflexivity].
  destruct (match _work_queue _ with [] => true | _ => false end);
    reflexivity.
Qed.

(** X6. The signal a click enqueues is the one the worker's next [get]
    returns, with the button of that click, and the [get] leaves the
    queue empty. *)
Theorem worker_gets_the_triggering_click
    (x y : Z) (button : Button) (pressed : bool) (clk : ClickClock)
    (s : Sim) :
  let s' := snd (_on_click x y button pressed clk s) in
  _work_queue s' <> _work_queue s ->
  fst (queue_get s') = Some (button, t_payload clk)
  /\ _work_queue (snd (queue_get s')) = [].
Proof.
  intros s' Hq.
  pose proof (_on_click_queue x y button pressed clk s) as H.
  fold s' in H. cbv zeta in H.
  destruct H as [H | (_ & _ & H)]; [contradiction|].
  unfold queue_get. rewrite H. split; reflexivity.
Qed.

Lemma worker_gets_the_triggering_click_witness :
  _work_queue (snd (_on_click 0 0 right true
                      (mkClickClock (10 # 100) (10 # 100) (11 # 100))
                      one_click_sim))
  <> _work_queue one_click_sim
  /\ fst (queue_get (snd (_on_click 0 0 right true
                            (mkClickClock (10 # 100) (10 # 100) (11 # 100))
                            one_click_sim)))
     = Some (right, 11 # 100).
Proof.
  assert (H : _work_queue (snd (_on_click 0 0 right true
                      (mkClickClock (10 # 100) (10 # 100) (11 # 100))
                      one_click_sim))
              <> _work_queue one_click_sim) by discriminate.
  split; [exact H|].
  exact (proj1 (worker_gets_the_triggering_click 0 0 right true
                  (mkClickClock (10 # 100) (10 # 100) (11 # 100))
                  one_click_sim H)).
Defined.

(** ** Construction of the engine *)

Lemma truediv_cases (a b : Q) :
  (b == 0 /\ Py.truediv a b = Py.Raise Py.ZeroDivisionError)
  \/ (~ b == 0 /\ Py.truediv a b = Py.Ok (a / b)).
Proof.
  destruct (Qeq_dec b 0) as [H|H].
  - left. split; [exact H | now apply truediv_zero].
  - right. split; [exact H | now apply truediv_ok].
Qed.

Lemma Qdiv_zero_iff (a b : Q) : ~ b == 0 -> (a / b == 0 <-> a == 0).
Proof.
  intro Hb. split; intro H.
  - setoid_replace a with (a / b * b) by (field; exact Hb).
    rewrite H. ring.
  - rewrite H. unfold Qdiv. ring.
Qed.

(** X7. A zero polling rate or a zero ramp duration makes
    [SensitivityEngine.__init__] raise [ZeroDivisionError]. *)
Theorem Engine_init_zero_raises (cfg : Config) (os : option POINT.t) :
  POLLING_RATE_HZ cfg == 0 \/ SENS_RAMP_DOWN_MS cfg == 0
  \/ SENS_RAMP_UP_MS cfg == 0 ->
  Engine_init cfg os = Py.Raise Py.ZeroDivisionError.
Proof.
  intro Hz. unfold Engine_init, polling_ms, Py.bind.
  set (hz := POLLING_RATE_HZ cfg) in *.
  set (down := SENS_RAMP_DOWN_MS cfg) in *.
  set (up := SENS_RAMP_UP_MS cfg) in *.
  destruct (truediv_cases 1000 hz) as [[_ ->]|[Hhz ->]]; [reflexivity|].
  assert (Hp : ~ 1000 / hz == 0).
  { rewrite (Qdiv_zero_iff 1000 hz Hhz). intro E. discriminate E. }
  destruct (truediv_cases down (1000 / hz)) as [[? _]|[_ ->]];
    [contradiction|].
  destruct (truediv_cases 1 (down / (1000 / hz))) as [[_ ->]|[Hd ->]];
    [reflexivity|].
  destruct (truediv_cases up (1000 / hz)) as [[? _]|[_ ->]];
    [contradiction|].
  destruct (truediv_cases 1 (up / (1000 / hz))) as [[_ ->]|[Hu ->]];
    [reflexivity|].
  rewrite (Qdiv_zero_iff down (1000 / hz) Hp) in Hd.
  rewrite (Qdiv_zero_iff up (1000 / hz) Hp) in Hu.
  destruct Hz as [Hz|[Hz|Hz]]; contradiction.
Qed.

Lemma Engine_init_zero_raises_witness :
  Engine_init (mkConfig 18 (15, 17) [left; right] (15 # 100) 10 (5 # 10)
                        40 0 (3 # 10) 100 250) None
  = Py.Raise Py.ZeroDivisionError.
Proof.
  apply Engine_init_zero_raises. right. right. reflexivity.
Defined.

(** ** The running system, continued *)

Lemma step_config (ev : Event) (sys : System) :
  config (sim (world (step ev sys))) = config (sim (world sys)).
Proof.
  destruct ev as [x y b p clk| |fl|b u|env| |]; cbn [step].
  - pose proof (_on_click_config x y b p clk (sim (world sys))) as H.
    destruct (_on_click x y b p clk (sim (world sys))). exact H.
  - cbn. unfold queue_get. destruct (_work_queue _); reflexivity.
  - reflexivity.
  - pose proof (burst_unit_cases b u (world sys)) as H. cbv zeta in H.
    cbn [world].
    destruct (pre_click_sleep _ _); [|now rewrite H].
    destruct (press_raises u); [now rewrite H|].
    destruct (release_raises u); now rewrite H.
  - destruct (damper_exn sys); [reflexivity|].
    destruct (_running (engine sys)); [|reflexivity].
    pose proof (loop_pass_state env (engine sys) (sim (world sys))) as Hl.
    rewrite get_total_cps_state in Hl.
    destruct (loop_pass env (engine sys) (sim (world sys)))
      as [[[ms|ex] e'] s']; cbn in Hl |- *; now rewrite Hl.
  - reflexivity.
  - reflexivity.
Qed.

Lemma get_total_cps_returns (now : Q) (s : Sim) :
  ~ CPS_WINDOW_SECONDS (config s) == 0 ->
  exists rate, fst (get_total_cps now s) = Py.Ok rate.
Proof.
  intro HW. unfold get_total_cps.
  destruct (evict _ _ _); [now exists 0|].
  rewrite truediv_ok by exact HW. eexists. reflexivity.
Qed.

(** The two outcomes of one pass of the damping loop. *)
Lemma loop_pass_cases (env : TickEnv) (e : Engine) (s : Sim) :
  (exists ex, loop_pass env e s
              = (Py.Raise ex, e, snd (get_total_cps (t_cps env) s))
              /\ fst (get_total_cps (t_cps env) s) = Py.Raise ex)
  \/ (exists over,
         loop_pass env e s
         = (Py.Ok (fst (counter_move (cursor env) (ramp over e))),
            snd (counter_move (cursor env) (ramp over e)),
            snd (get_total_cps (t_cps env) s))).
Proof.
  unfold loop_pass.
  destruct (get_total_cps (t_cps env) s) as [[c|ex] s'].
  - right. eexists. destruct (counter_move _ _) eqn:E. cbn.
    rewrite E. reflexivity.
  - left. now exists ex.
Qed.



(** X21. A [stop()] that runs before the damping thread's first statement
    is lost: line 83 sets [_running] again, the loop ramps the weight
    down on the clicks recorded before the stop and answers a
    displacement of 10 pixels with a move by (-5, 0). *)
Theorem stop_before_loop_start_is_lost :
  exists e,
    Engine_init DEFAULT_CONFIG (Some rest_pos) = Py.Ok e
    /\ System_start DEFAULT_CONFIG (Some rest_pos)
       = Py.Ok (step EvLoopStart (System_before_loop DEFAULT_CONFIG e))
    /\ _running (engine (run stop_then_loop_start
                             (System_before_loop DEFAULT_CONFIG e))) = true
    /\ moves (run stop_then_loop_start
                  (System_before_loop DEFAULT_CONFIG e))
       = [((-5)%Z, 0%Z)].
Proof.
  eexists. split; [reflexivity|].
  repeat split; vm_compute; reflexivity.
Qed.

(** ** What the damper does to the cursor *)

(** A tick at weight 1.0 with nothing in the window and a positive
    threshold: the weight stays at 1.0 and no move is issued. *)
Lemma loop_pass_idle (env : TickEnv) (e : Engine) (s : Sim) :
  0 < CPS_SLOWDOWN_THRESHOLD (config s) ->
  total_click_history s = [] ->
  current_weight e = 1 ->
  exists e' s',
    loop_pass env e s = (Py.Ok [], e', s')
    /\ current_weight e' = 1
    /\ total_click_history s' = [] /\ config s' = config s.
Proof.
  intros Hth Hh Hw. unfold loop_pass, get_total_cps. rewrite Hh.
  cbn [evict set_history config last_click_time].
  assert (Hover : forall t, is_over_limit (config s) 0 t = false).
  { intro t. unfold is_over_limit.
    apply Qle_bool_false_iff in Hth. now rewrite Hth. }
  rewrite Hover.
  assert (Hr : ramp false e = e).
  { unfold ramp, target_weight. now rewrite Hw. }
  rewrite Hr. unfold counter_move. rewrite Hw.
  cbn [Py.Qlt_bool Qle_bool INACTIVE_WEIGHT].
  eexists _, _. split; [reflexivity|]. cbn. auto.
Qed.

(** X9. While no click is recorded (no press of a trigger button, no
    synthetic click), a damper started at weight 1.0 with a positive CPS
    threshold never moves the cursor and keeps its weight at 1.0,
    whatever the cursor does and however many ticks run. *)
Theorem no_click_no_move (cfg : Config) (e : Engine) (evs : list Event) :
  0 < CPS_SLOWDOWN_THRESHOLD cfg ->
  current_weight e = 1 ->
  Forall (fun ev => records_click cfg ev = false) evs ->
  let sys := run evs (System_boot cfg e) in
  moves sys = [] /\ current_weight (engine sys) = 1.
Proof.
  intros Hth Hw Hevs.
  set (I := fun sys : System =>
              moves sys = [] /\ current_weight (engine sys) = 1
              /\ total_click_history (sim (world sys)) = []
              /\ config (sim (world sys)) = cfg).
  assert (HI : I (run evs (System_boot cfg e))).
  { assert (H0 : I (System_boot cfg e)) by (repeat split; exact Hw).
    revert H0. generalize (System_boot cfg e) as sys.
    induction Hevs as [|ev evs Hev _ IH]; intros sys H0; [exact H0|].
    cbn [run fold_left]. apply IH. clear IH.
    destruct H0 as (Hm & Hcw & Hh & Hc).
    destruct ev as [x y b p clk| |fl|b u|env| |]; cbn [step records_click] in *.
    - unfold _on_click. rewrite Hc.
      replace (negb p || negb (is_trigger cfg b)) with true.
      + repeat split; assumption.
      + destruct p; [|reflexivity]. cbn in Hev. now rewrite Hev.
    - repeat split; try assumption.
      + cbn. unfold queue_get. destruct (_work_queue _); exact Hh.
      + cbn. unfold queue_get. destruct (_work_queue _); exact Hc.
    - repeat split; assumption.
    - discriminate.
    - destruct (damper_exn sys); [repeat split; assumption|].
      destruct (_running (engine sys)); [|repeat split; assumption].
      destruct (loop_pass_idle env (engine sys) (sim (world sys)))
        as (e' & s' & -> & Hw' & Hh' & Hc'); try assumption.
      { now rewrite Hc. }
      repeat split; cbn; try assumption.
      + now rewrite app_nil_r.
      + now rewrite Hc'.
    - repeat split; assumption.
    - repeat split; assumption. }
  destruct HI as (Hm & Hcw & _). now split.
Qed.

Lemma no_click_no_move_witness :
  0 < CPS_SLOWDOWN_THRESHOLD DEFAULT_CONFIG
  /\ moves (run [tick_ok 1; EvClick 0 0 left false (mkClickClock 1 1 1);
                 EvTick (mkTickEnv 2 2 (Some (POINT.mk 0 0)))]
                (System_boot DEFAULT_CONFIG default_engine)) = [].
Proof.
  assert (H : 0 < CPS_SLOWDOWN_THRESHOLD DEFAULT_CONFIG) by reflexivity.
  split; [exact H|].
  refine (proj1 (no_click_no_move DEFAULT_CONFIG default_engine
                   [tick_ok 1; EvClick 0 0 left false (mkClickClock 1 1 1);
                    EvTick (mkTickEnv 2 2 (Some (POINT.mk 0 0)))]
                   H eq_refl _)).
  repeat constructor.
Defined.

Lemma counter_move_resting (p : POINT.t) (e : Engine) :
  last_pos e = p ->
  fst (counter_move (Some p) e) = []
  /\ last_pos (snd (counter_move (Some p) e)) = p.
Proof.
  intro Hp. unfold counter_move. rewrite Hp.
  destruct (Py.Qlt_bool _ _); [|now split].
  cbn [GetCursorPos]. rewrite !Z.sub_diag. cbn. now split.
Qed.

(** X11. As long as every cursor query succeeds and reads the position
    the engine last recorded, the damper never moves the cursor, whatever
    the click rate and the weight: a cursor at rest is left at rest. *)
Theorem resting_cursor_never_moved
    (cfg : Config) (e : Engine) (p : POINT.t) (evs : list Event) :
  last_pos e = p ->
  Forall (reads_cursor_at p) evs ->
  let sys := run evs (System_boot cfg e) in
  moves sys = [] /\ last_pos (engine sys) = p.
Proof.
  intros Hp Hevs.
  assert (H0 : moves (System_boot cfg e) = []
               /\ last_pos (engine (System_boot cfg e)) = p)
    by (split; [reflexivity|exact Hp]).
  revert H0. generalize (System_boot cfg e) as sys.
  induction Hevs as [|ev evs Hev _ IH]; intros sys H0; [exact H0|].
  cbn [run fold_left]. apply IH. clear IH.
  destruct H0 as [Hm Hl].
  destruct ev as [x y b pr clk| |fl|b u|env| |];
    cbn [step reads_cursor_at] in *; auto.
  - destruct (_on_click x y b pr clk (sim (world sys))). now split.
  - destruct (damper_exn sys); [now split|].
    destruct (_running (engine sys)); [|now split].
    destruct (loop_pass_cases env (engine sys) (sim (world sys)))
      as [(ex & -> & _) | (over & ->)]; [now split|].
    rewrite Hev.
    destruct (counter_move_resting p (ramp over (engine sys))) as [H1 H2].
    { destruct (ramp_keeps_parameters over (engine sys))
        as (_ & _ & _ & -> & _). exact Hl. }
    cbn. rewrite H1, app_nil_r. now split.
Qed.

Lemma resting_cursor_never_moved_witness :
  last_pos default_engine = rest_pos
  /\ moves (run clicks_then_ramp (System_boot DEFAULT_CONFIG default_engine))
     = [].
Proof.
  assert (H : last_pos default_engine = rest_pos) by reflexivity.
  split; [exact H|].
  refine (proj1 (resting_cursor_never_moved DEFAULT_CONFIG default_engine
                   rest_pos clicks_then_ramp H _)).
  repeat constructor.
Defined.

(** X13. At a weight in [0, 1] a tick issues at most one move, and a move
    it issues points against the observed displacement and is no longer
    than it, on each axis. *)
Theorem move_against_and_within_displacement
    (e : Engine) (curr : POINT.t) :
  0 <= current_weight e -> current_weight e <= 1 ->
  let dx := (POINT.x curr - POINT.x (last_pos e))%Z in
  let dy := (POINT.y curr - POINT.y (last_pos e))%Z in
  (length (fst (counter_move (Some curr) e)) <= 1)%nat
  /\ forall mx my,
       In (mx, my) (fst (counter_move (Some curr) e)) ->
       (Z.abs mx <= Z.abs dx /\ mx * dx <= 0
        /\ Z.abs my <= Z.abs dy /\ my * dy <= 0)%Z.
Proof.
  intros H0 H1 dx dy. unfold counter_move.
  destruct (Py.Qlt_bool _ _); [|split; [cbn; lia|intros ? ? []]].
  cbn [GetCursorPos]. fold dx. fold dy.
  destruct (_ || _); [|split; [cbn; lia|intros ? ? []]].
  destruct (_ || _); [|split; [cbn; lia|intros ? ? []]].
  split; [cbn; lia|].
  intros mx my [E|[]]. unfold _move_relative in E.
  injection E as <- <-.
  destruct (int_correction_between dx (current_weight e) H0 H1) as [Hxp Hxn].
  destruct (int_correction_between dy (current_weight e) H0 H1) as [Hyp Hyn].
  repeat split.
  - destruct (Z.le_ge_cases 0 dx); [specialize (Hxp H)|specialize (Hxn H)]; lia.
  - destruct (Z.le_ge_cases 0 dx); [specialize (Hxp H)|specialize (Hxn H)]; nia.
  - destruct (Z.le_ge_cases 0 dy); [specialize (Hyp H)|specialize (Hyn H)]; lia.
  - destruct (Z.le_ge_cases 0 dy); [specialize (Hyp H)|specialize (Hyn H)]; nia.
Qed.

Lemma move_against_and_within_displacement_witness :
  0 <= current_weight resting_engine
  /\ current_weight resting_engine <= 1
  /\ (length (fst (counter_move (Some (POINT.mk 1003 500)) resting_engine))
      <= 1)%nat.
Proof.
  assert (H0 : 0 <= current_weight resting_engine)
    by (intro E; discriminate E).
  assert (H1 : current_weight resting_engine <= 1)
    by (intro E; discriminate E).
  split; [exact H0|]. split; [exact H1|].
  exact (proj1 (move_against_and_within_displacement resting_engine
                  (POINT.mk 1003 500) H0 H1)).
Defined.

(** ** The burst, continued *)

Lemma pre_click_sleep_nonzero (cfg : Config) (raw : Z) :
  ~ fst (TARGET_CPS_RANGE cfg) == 0 ->
  ~ snd (TARGET_CPS_RANGE cfg) == 0 ->
  exists d, pre_click_sleep cfg raw = Py.Ok d.
Proof.
  intros Hl Hh. unfold pre_click_sleep, Py.bind.
  rewrite (truediv_ok 1 _ Hh), (truediv_ok 1 _ Hl). eexists. reflexivity.
Qed.

Lemma burst_loop_until_stop (button : Button) (units : nat -> UnitEnv) :
  controller_never_raises units ->
  forall (n i k : nat) (w : World),
    ~ fst (TARGET_CPS_RANGE (config (sim w))) == 0 ->
    ~ snd (TARGET_CPS_RANGE (config (sim w))) == 0 ->
    _is_listening (sim w) = true ->
    stop_seen_at units i k n ->
    let res := burst_loop button units i n w in
    fst res = Py.Ok tt
    /\ clicks_of (emitted (snd res))
       = clicks_of (emitted w) ++ click_pairs button k
    /\ total_click_history (sim (snd res))
       = total_click_history (sim w)
         ++ map (fun j => t_click (units j)) (seq i k).
Proof.
  intros Hok. induction n as [|n IH]; intros i k w Hl Hh Hlis (Hk & Hgo & Hstop).
  - assert (k = 0)%nat by lia. subst k. cbn.
    rewrite !app_nil_r. auto.
  - cbn [burst_loop]. destruct k as [|k].
    + rewrite Nat.add_0_r in Hstop. rewrite Hstop by lia.
      cbn. rewrite !app_nil_r. auto.
    + rewrite (Hgo i) by lia. rewrite Hlis. cbn [negb].
      unfold Py.seq.
      pose proof (burst_unit_cases button (units i) w) as Hu.
      cbv zeta in Hu.
      destruct (pre_click_sleep_nonzero (config (sim w))
                  (raw_delay (units i)) Hl Hh) as [d Hd].
      rewrite Hd in Hu.
      destruct (Hok i) as [Hp Hr]. rewrite Hp, Hr in Hu. rewrite Hu.
      cbv beta iota.
      match goal with
      | |- context [burst_loop button units (S i) n ?w4] =>
          specialize (IH (S i) k w4)
      end.
      cbv zeta in IH.
      destruct IH as (H1 & H2 & H3); try assumption.
      { repeat split.
        - lia.
        - intros j Hj. apply Hgo. lia.
        - intro Hlt. replace (S i + k)%nat with (i + S k)%nat by lia.
          apply Hstop. lia. }
      split; [exact H1|]. split.
      * rewrite H2. cbn [emit on_sim emitted].
        rewrite !clicks_of_app. cbn [clicks_of filter].
        unfold click_pairs. cbn [repeat concat].
        rewrite !app_nil_r, <- !app_assoc. reflexivity.
      * rewrite H3. cbn [emit on_sim sim register_click_event
                         total_click_history seq map].
        rewrite <- app_assoc. reflexivity.
Qed.

(** X14. When the CPS bounds are non-zero, no controller call raises and
    the worker is listening, a burst whose test of [_is_listening] first
    sees [stop()] at pass [k] (or never, [k = clicks_to_add]) returns
    normally, has performed exactly [k] press/release pairs of the
    trigger's button, and has recorded exactly the [k] timestamps of
    those clicks in the history; in particular an undisturbed burst adds
    exactly [clicks_to_add] clicks. *)
Theorem burst_clicks_until_stop
    (button : Button) (env : BurstEnv) (w : World) (k : nat) :
  ~ fst (TARGET_CPS_RANGE (config (sim w))) == 0 ->
  ~ snd (TARGET_CPS_RANGE (config (sim w))) == 0 ->
  _is_listening (sim w) = true ->
  controller_never_raises (units env) ->
  stop_seen_at (units env) 0 k (Z.to_nat (clicks_to_add env)) ->
  let res := worker_burst button env w in
  fst res = Py.Ok tt
  /\ clicks_of (emitted (snd res))
     = clicks_of (emitted w) ++ click_pairs button k
  /\ total_click_history (sim (snd res))
     = total_click_history (sim w)
       ++ map (fun j => t_click (units env j)) (seq 0 k).
Proof.
  intros Hl Hh Hlis Hok Hstop.
  rewrite worker_burst_unfold. cbv zeta. cbn [fst snd].
  destruct (burst_loop_until_stop button (units env) Hok
              (Z.to_nat (clicks_to_add env)) 0 k
              (on_sim (set_simulating true) w) Hl Hh Hlis Hstop)
    as (H1 & H2 & H3).
  split; [exact H1|]. split; [exact H2 | exact H3].
Qed.

Lemma burst_clicks_until_stop_witness :
  clicks_of (emitted (snd (worker_burst left
                             (mkBurstEnv 1 (fun _ => quiet_unit))
                             (listening_world DEFAULT_CONFIG))))
  = click_pairs left 3.
Proof.
  refine (proj1 (proj2 (burst_clicks_until_stop left
                          (mkBurstEnv 1 (fun _ => quiet_unit))
                          (listening_world DEFAULT_CONFIG) 3 _ _ eq_refl _ _)));
    try (intro E; discriminate E).
  - intro j. split; reflexivity.
  - repeat split; cbn; intros; try lia; reflexivity.
Defined.

Lemma max_0_nonneg (a : Q) : 0 <= Py.max 0 a.
Proof. destruct (max_cases 0 a) as [[? ->]|[? ->]]; lra. Qed.

Lemma pre_click_sleep_nonneg (cfg : Config) (raw : Z) (d : Q) :
  pre_click_sleep cfg raw = Py.Ok d -> 0 <= d.
Proof.
  unfold pre_click_sleep, Py.bind.
  destruct (Py.truediv 1 (snd _)); [|discriminate].
  destruct (Py.truediv 1 (fst _)); [|discriminate].
  intro H. injection H as <-. apply max_0_nonneg.
Qed.

Lemma hold_range (raw : Z) :
  1 # 100 <= Py.uniform (1 # 100) (2 # 100) raw
  /\ Py.uniform (1 # 100) (2 # 100) raw < 2 # 100.
Proof.
  unfold Py.uniform. destruct (random_range raw) as [H0 H1].
  set (u := Py.random raw) in *. split; lra.
Qed.

(** What a run of the loop emits and records: only actions a burst may
    do, and one timestamp per press. *)
Lemma burst_loop_actions (button : Button) (units : nat -> UnitEnv) :
  forall (n i : nat) (w : World),
  exists new ts,
    emitted (snd (burst_loop button units i n w)) = emitted w ++ new
    /\ Forall (burst_action_ok button) new
    /\ total_click_history (sim (snd (burst_loop button units i n w)))
       = total_click_history (sim w) ++ ts
    /\ length ts = length (filter is_press new).
Proof.
  induction n as [|n IH]; intros i w.
  - exists [], []. cbn. rewrite !app_nil_r. auto.
  - cbn [burst_loop].
    set (w0 := if stop_requested (units i) then on_sim stop w else w).
    assert (He : emitted w0 = emitted w)
      by (unfold w0; destruct (stop_requested (units i)); reflexivity).
    assert (Hh : total_click_history (sim w0) = total_click_history (sim w))
      by (unfold w0; destruct (stop_requested (units i)); reflexivity).
    destruct (negb (_is_listening (sim w0))).
    { exists [], []. cbn. rewrite !app_nil_r. auto. }
    unfold Py.seq.
    pose proof (burst_unit_cases button (units i) w0) as Hu. cbv zeta in Hu.
    destruct (pre_click_sleep (config (sim w0)) (raw_delay (units i)))
      as [d|ex] eqn:Hd.
    2:{ rewrite Hu. exists [], []. cbn. rewrite !app_nil_r. auto. }
    apply pre_click_sleep_nonneg in Hd.
    pose proof (hold_range (raw_hold (units i))) as Hhold.
    destruct (press_raises (units i)).
    { rewrite Hu. exists [Sleep BeforePress d], []. cbn.
      rewrite He, Hh, app_nil_r. repeat split; auto. }
    destruct (release_raises (units i)).
    { rewrite Hu.
      exists [Sleep BeforePress d; Press button;
              Sleep Hold (Py.uniform (1 # 100) (2 # 100)
                                     (raw_hold (units i)))],
             [t_click (units i)].
      cbn. rewrite He, Hh, <- !app_assoc. repeat split; auto.
      repeat constructor; cbn; tauto. }
    rewrite Hu. cbv beta iota.
    match goal with
    | |- context [burst_loop button units (S i) n ?w4] =>
        destruct (IH (S i) w4) as (new & ts & H1 & H2 & H3 & H4)
    end.
    exists ([Sleep BeforePress d; Press button;
             Sleep Hold (Py.uniform (1 # 100) (2 # 100) (raw_hold (units i)));
             Release button] ++ new),
           (t_click (units i) :: ts).
    repeat split.
    + rewrite H1. cbn [emit on_sim emitted]. rewrite He, <- !app_assoc.
      reflexivity.
    + apply Forall_app. split; [|exact H2].
      repeat constructor; cbn; tauto.
    + rewrite H3. cbn [emit on_sim sim register_click_event
                       total_click_history].
      rewrite Hh, <- app_assoc. reflexivity.
    + cbn. now rewrite H4.
Qed.

(** X15. Whatever a burst meets, for any configuration: it presses and
    releases only the button of the signal it received, every hold sleep
    lasts at least 10 ms and less than 20 ms, and no pre-click sleep is
    negative ([time.sleep] is never handed a negative duration). *)
Theorem burst_only_does_allowed_actions
    (button : Button) (env : BurstEnv) (w : World) :
  exists new,
    emitted (snd (worker_burst button env w)) = emitted w ++ new
    /\ Forall (burst_action_ok button) new.
Proof.
  rewrite worker_burst_unfold. cbv zeta. cbn [snd on_sim emitted].
  destruct (burst_loop_actions button (units env)
              (Z.to_nat (clicks_to_add env)) 0
              (on_sim (set_simulating true) w))
    as (new & ts & H1 & H2 & _).
  exists new. split; [exact H1 | exact H2].
Qed.

(** X16. Every synthetic press of a burst is recorded in the click
    history, whether the burst completes, is stopped or is ended by an
    exception: the history grows by exactly one timestamp per press
    emitted, so synthetic clicks count in the CPS estimate. *)
Theorem every_synthetic_press_is_recorded
    (button : Button) (env : BurstEnv) (w : World) :
  exists new ts,
    emitted (snd (worker_burst button env w)) = emitted w ++ new
    /\ total_click_history (sim (snd (worker_burst button env w)))
       = total_click_history (sim w) ++ ts
    /\ length ts = length (filter is_press new).
Proof.
  rewrite worker_burst_unfold. cbv zeta.
  cbn [snd on_sim emitted sim set_simulating total_click_history].
  destruct (burst_loop_actions button (units env)
              (Z.to_nat (clicks_to_add env)) 0
              (on_sim (set_simulating true) w))
    as (new & ts & H1 & _ & H3 & H4).
  exists new, ts. repeat split; assumption.
Qed.

(** X17. With a zero target CPS bound, a burst that is not stopped at
    once raises [ZeroDivisionError] in its first pass, before any sleep,
    press or recorded click, and still leaves [_simulating] false. *)
Theorem zero_cps_bound_raises
    (button : Button) (env : BurstEnv) (w : World) :
  fst (TARGET_CPS_RANGE (config (sim w))) == 0
  \/ snd (TARGET_CPS_RANGE (config (sim w))) == 0 ->
  _is_listening (sim w) = true ->
  stop_requested (units env 0%nat) = false ->
  worker_burst button env w
  = (Py.Raise Py.ZeroDivisionError, on_sim (set_simulating false) w).
Proof.
  intros Hz Hlis Hstop.
  rewrite worker_burst_unfold. cbv zeta.
  assert (Hn : exists n, Z.to_nat (clicks_to_add env) = S n).
  { pose proof (randint_range 2 4 (raw_count env)) as H.
    unfold clicks_to_add. exists (Z.to_nat (Py.randint 2 4 (raw_count env)) - 1)%nat.
    lia. }
  destruct Hn as [n ->]. cbn [burst_loop]. rewrite Hstop.
  cbn [on_sim sim set_simulating _is_listening]. rewrite Hlis. cbn [negb].
  unfold Py.seq.
  pose proof (burst_unit_cases button (units env 0%nat)
                (on_sim (set_simulating true) w)) as Hu.
  cbv zeta in Hu. cbn [on_sim sim set_simulating config] in Hu.
  assert (Hp : pre_click_sleep (config (sim w)) (raw_delay (units env 0%nat))
               = Py.Raise Py.ZeroDivisionError).
  { unfold pre_click_sleep, Py.bind.
    destruct (truediv_cases 1 (snd (TARGET_CPS_RANGE (config (sim w)))))
      as [[_ ->]|[Hs ->]]; [reflexivity|].
    destruct Hz as [Hz|Hz]; [|contradiction].
    now rewrite (truediv_zero 1 _ Hz). }
  rewrite Hp in Hu. unfold on_sim in Hu |- *. cbn [sim emitted] in Hu |- *.
  rewrite Hu. cbn. destruct w as [s em]. destruct s. reflexivity.
Qed.

Lemma zero_cps_bound_raises_witness :
  fst (worker_burst left (mkBurstEnv 0 (fun _ => quiet_unit))
         (mkWorld (start (Sim_init
                     (mkConfig 18 (0, 17) [left; right] (15 # 100) 10
                               (5 # 10) 40 15 (3 # 10) 100 250))) []))
  = Py.Raise Py.ZeroDivisionError.
Proof.
  refine (f_equal fst (zero_cps_bound_raises left
                         (mkBurstEnv 0 (fun _ => quiet_unit))
                         (mkWorld (start (Sim_init
                            (mkConfig 18 (0, 17) [left; right] (15 # 100) 10
                                      (5 # 10) 40 15 (3 # 10) 100 250))) [])
                         _ eq_refl eq_refl)).
  left. reflexivity.
Defined.

(** ** When the damping lets go *)

(** X18. With a non-zero window, a tick at which the newest click is at
    least [STALE_TIMEOUT_MS] old ramps toward 1.0 whatever the CPS
    estimate is: a weight below 1.0 becomes
    [min(1.0, weight + step_up)], which for a non-negative step is not
    below the weight before. *)
Theorem stale_stream_releases_damping
    (env : TickEnv) (e : Engine) (s : Sim) :
  ~ CPS_WINDOW_SECONDS (config s) == 0 ->
  STALE_TIMEOUT_MS (config s) <= (t_loop env - last_click_time s) * 1000 ->
  current_weight e < 1 ->
  let e' := snd (fst (loop_pass env e s)) in
  current_weight e' = Py.min 1 (current_weight e + step_up e)
  /\ (0 <= step_up e -> current_weight e <= current_weight e').
Proof.
  intros HW Hstale Hw.
  assert (He : snd (fst (loop_pass env e s))
               = snd (counter_move (cursor env) (ramp false e))).
  { unfold loop_pass.
    destruct (get_total_cps_returns (t_cps env) s HW) as [rate Hr].
    pose proof (get_total_cps_state (t_cps env) s) as Hs.
    destruct (get_total_cps (t_cps env) s) as [r s']. cbn in Hr, Hs.
    subst r s'. cbn [set_history last_click_time config].
    assert (Ho : is_over_limit (config s) rate
                   ((t_loop env - last_click_time s) * 1000) = false).
    { unfold is_over_limit. apply Qlt_bool_false_iff in Hstale.
      rewrite Hstale. apply andb_false_r. }
    rewrite Ho. destruct (counter_move _ _). reflexivity. }
  cbv zeta. rewrite He.
  destruct (counter_move_keeps_weight (cursor env) (ramp false e))
    as (_ & _ & _ & -> & _).
  unfold ramp, target_weight.
  assert (Hgt : Py.Qgt_bool (current_weight e) 1 = false)
    by (apply Qgt_bool_false_iff; lra).
  assert (Hlt : Py.Qlt_bool (current_weight e) 1 = true)
    by now apply Qlt_bool_iff.
  rewrite Hgt, Hlt. cbn [set_current_weight current_weight].
  split; [reflexivity|]. intro Hsu.
  destruct (min_cases 1 (current_weight e + step_up e))
    as [[H ->]|[H ->]]; lra.
Qed.

Lemma stale_stream_releases_damping_witness :
  ~ CPS_WINDOW_SECONDS (config scenario_sim) == 0
  /\ current_weight (snd (fst (loop_pass (mkTickEnv 1 1 None)
                                 resting_engine scenario_sim)))
     = Py.min 1 (current_weight resting_engine + step_up resting_engine).
Proof.
  assert (H : ~ CPS_WINDOW_SECONDS (config scenario_sim) == 0)
    by (intro E; discriminate E).
  split; [exact H|].
  refine (proj1 (stale_stream_releases_damping (mkTickEnv 1 1 None)
                   resting_engine scenario_sim H _ _)).
  - intro E. discriminate E.
  - reflexivity.
Defined.

(** ** The key the code never reads *)

Lemma _on_click_set_hard (v : Q) x y button pressed clk (s : Sim) :
  _on_click x y button pressed clk (Sim_set_hard v s)
  = (fst (_on_click x y button pressed clk s),
     Sim_set_hard v (snd (_on_click x y button pressed clk s))).
Proof.
  destruct s as [cfg lis simu q h lct]. destruct cfg.
  unfold _on_click, Sim_set_hard, set_HARD_CPS_LIMIT, is_trigger,
    register_click_event, set_work_queue.
  cbn [config _is_listening _simulating _work_queue total_click_history
       last_click_time TRIGGER_BUTTONS DOUBLE_CLICK_THRESHOLD
       TARGET_CPS_RANGE CPS_SLOWDOWN_THRESHOLD SENS_MULTIPLIER
       SENS_RAMP_DOWN_MS SENS_RAMP_UP_MS CPS_WINDOW_SECONDS
       STALE_TIMEOUT_MS POLLING_RATE_HZ].
  destruct (negb pressed || negb _); [reflexivity|].
  destruct simu; [reflexivity|].
  destruct (1 <? _)%nat; [|reflexivity].
  destruct (Py.index_neg2 _); [|reflexivity].
  destruct (Qle_bool _ _); [|reflexivity].
  destruct q; reflexivity.
Qed.

Lemma burst_unit_set_hard (v : Q) (button : Button) (u : UnitEnv)
    (w : World) :
  burst_unit button u (World_set_hard v w)
  = (fst (burst_unit button u w),
     World_set_hard v (snd (burst_unit button u w))).
Proof.
  pose proof (burst_unit_cases button u w) as H. cbv zeta in H.
  pose proof (burst_unit_cases button u (World_set_hard v w)) as H'.
  cbv zeta in H'. cbn [World_set_hard sim Sim_set_hard config] in H'.
  change (pre_click_sleep (set_HARD_CPS_LIMIT v (config (sim w)))
                          (raw_delay u))
    with (pre_click_sleep (config (sim w)) (raw_delay u)) in H'.
  destruct (pre_click_sleep (config (sim w)) (raw_delay u));
    [|now rewrite H, H'].
  destruct (press_raises u); [now rewrite H, H'|].
  destruct (release_raises u); now rewrite H, H'.
Qed.

Lemma loop_pass_set_hard (v : Q) (env : TickEnv) (e : Engine) (s : Sim) :
  loop_pass env e (Sim_set_hard v s)
  = (fst (loop_pass env e s), Sim_set_hard v (snd (loop_pass env e s))).
Proof.
  unfold loop_pass, get_total_cps.
  cbn [Sim_set_hard config total_click_history set_HARD_CPS_LIMIT
       CPS_WINDOW_SECONDS].
  destruct (evict _ _ _).
  - cbn [set_history last_click_time config].
    change (is_over_limit (set_HARD_CPS_LIMIT v (config s)))
      with (is_over_limit (config s)).
    destruct (counter_move _ _). reflexivity.
  - destruct (Py.truediv _ _); [|reflexivity].
    cbn [set_history last_click_time config].
    change (is_over_limit (set_HARD_CPS_LIMIT v (config s)))
      with (is_over_limit (config s)).
    destruct (counter_move _ _). reflexivity.
Qed.

Lemma step_set_hard (v : Q) (ev : Event) (sys : System) :
  step ev (System_set_hard v sys) = System_set_hard v (step ev sys).
Proof.
  unfold System_set_hard.
  destruct ev as [x y b p clk| |fl|b u|env| |];
    cbn [step world engine moves listener_exn damper_exn].
  - change (sim (World_set_hard v (world sys)))
      with (Sim_set_hard v (sim (world sys))).
    rewrite _on_click_set_hard.
    destruct (_on_click x y b p clk (sim (world sys))). reflexivity.
  - unfold World_set_hard, on_sim, queue_get. cbn [sim emitted].
    cbn [Sim_set_hard _work_queue].
    destruct (_work_queue (sim (world sys))); reflexivity.
  - reflexivity.
  - rewrite burst_unit_set_hard. reflexivity.
  - destruct (damper_exn sys) eqn:Hd; [now rewrite Hd|].
    destruct (_running (engine sys)); [|now rewrite Hd].
    change (sim (World_set_hard v (world sys)))
      with (Sim_set_hard v (sim (world sys))).
    rewrite loop_pass_set_hard.
    destruct (loop_pass env (engine sys) (sim (world sys)))
      as [[[ms|ex] e'] s']; reflexivity.
  - reflexivity.
  - reflexivity.
Qed.

(** X19. The value under ["HARD_CPS_LIMIT"] has no effect: the engine is
    built the same, and a run from a state that differs only in that
    value goes through the same states, with the same clicks emitted,
    the same moves, queue and history. *)
Theorem HARD_CPS_LIMIT_is_never_read
    (v : Q) (cfg : Config) (os : option POINT.t)
    (evs : list Event) (sys : System) :
  Engine_init (set_HARD_CPS_LIMIT v cfg) os = Engine_init cfg os
  /\ run evs (System_set_hard v sys) = System_set_hard v (run evs sys).
Proof.
  split; [reflexivity|].
  revert sys. induction evs as [|ev evs IH]; intro sys; [reflexivity|].
  cbn [run fold_left]. rewrite step_set_hard. apply IH.
Qed.

(** * The callback among the other threads *)

Lemma register_click_event_statements (t : Q) (s : Sim) :
  register_click_event t s
  = append_last_click_time (set_last_click_time t s).
Proof. reflexivity. Qed.

(** A callback that no other thread interrupts is [_on_click]. *)
Lemma callback_uninterrupted
    (x y : Z) (button : Button) (pressed : bool) (clk : ClickClock)
    (s : Sim) :
  Fine.run (Fine.callback x y button pressed clk)
           (Fine.mkState s Fine.Idle None)
  = Fine.mkState (snd (_on_click x y button pressed clk s)) Fine.Idle
                 (match fst (_on_click x y button pressed clk s) with
                  | Py.Ok _ => None
                  | Py.Raise ex => Some ex
                  end).
Proof.
  unfold Fine.callback, Fine.run, _on_click.
  cbn [repeat fold_left Fine.step Fine.listener Fine.raised Fine.shared].
  destruct (negb pressed || negb (is_trigger (config s) button));
    [reflexivity|].
  cbn [fold_left Fine.step Fine.listen Fine.listener Fine.raised
       Fine.shared].
  rewrite <- register_click_event_statements.
  cbv zeta.
  destruct (_simulating (register_click_event (t_register clk) s));
    [reflexivity|].
  cbn [fold_left Fine.step Fine.listen Fine.listener Fine.raised
       Fine.shared].
  destruct (1 <? _)%nat; [|reflexivity].
  cbn [fold_left Fine.step Fine.listen Fine.listener Fine.raised
       Fine.shared].
  destruct (Py.index_neg2 _); [|reflexivity].
  cbn [fold_left Fine.step Fine.listen Fine.listener Fine.raised
       Fine.shared].
  destruct (Qle_bool _ _); [|reflexivity].
  cbn [fold_left Fine.step Fine.listen Fine.listener Fine.raised
       Fine.shared].
  destruct (_work_queue (register_click_event (t_register clk) s)) eqn:Hq;
    cbn [fold_left Fine.step Fine.listen Fine.listener Fine.raised
         Fine.shared]; rewrite ?Hq; reflexivity.
Qed.

Lemma fine_step_queue_safe (ev : Fine.Event) (st : Fine.State) :
  queue_safe st -> queue_safe (Fine.step ev st).
Proof.
  intros [Hlen Hput].
  destruct st as [s l r].
  cbn [Fine.shared Fine.listener] in Hlen, Hput.
  destruct ev as [x y b p clk| | |fl|t| |now|];
    cbn [Fine.step]; unfold Fine.on_shared;
    cbn [Fine.listener Fine.raised Fine.shared].
  - destruct l; try (split; assumption).
    destruct r; [split; assumption|].
    destruct (negb p || negb _); split; cbn; try assumption; discriminate.
  - unfold Fine.listen. cbn [Fine.listener Fine.shared Fine.raised].
    destruct l as [|b clk|b clk|b clk|b clk|b clk|b clk prev|b clk|b clk].
    + split; assumption.
    + split; cbn; [exact Hlen|discriminate].
    + split; cbn; [exact Hlen|discriminate].
    + split; cbn [Fine.shared Fine.listener]; [exact Hlen|].
      intros b' clk' E. destruct (_simulating s); discriminate E.
    + split; cbn [Fine.shared Fine.listener]; [exact Hlen|].
      intros b' clk' E.
      destruct (Nat.ltb 1 (length (total_click_history s))); discriminate E.
    + destruct (Py.index_neg2 (total_click_history s));
        (split; cbn [Fine.shared Fine.listener]; [exact Hlen|discriminate]).
    + split; cbn [Fine.shared Fine.listener]; [exact Hlen|].
      intros b' clk' E. destruct (Qle_bool _ _); discriminate E.
    + split; cbn [Fine.shared Fine.listener]; [exact Hlen|].
      intros b' clk' E.
      destruct (_work_queue s) eqn:Hq; [reflexivity|discriminate E].
    + rewrite (Hput b clk eq_refl). split; cbn; [lia|discriminate].
  - split; cbn [Fine.shared Fine.listener].
    + pose proof (queue_get_length s). lia.
    + intros b clk Hl. specialize (Hput b clk Hl).
      unfold queue_get. now rewrite Hput.
  - split; assumption.
  - split; assumption.
  - split; assumption.
  - split; cbn [Fine.shared Fine.listener].
    + unfold popleft_if_stale.
      destruct (total_click_history s); [exact Hlen|].
      destruct (Py.Qgt_bool _ _); exact Hlen.
    + intros b clk Hl. specialize (Hput b clk Hl).
      unfold popleft_if_stale.
      destruct (total_click_history s); [exact Hput|].
      destruct (Py.Qgt_bool _ _); exact Hput.
  - split; assumption.
Qed.

Lemma fine_run_invariant (P : Fine.State -> Prop) :
  (forall ev st, P st -> P (Fine.step ev st)) ->
  forall evs st, P st -> P (Fine.run evs st).
Proof.
  intros Hstep evs. induction evs as [|ev evs IH]; intros st H.
  - exact H.
  - cbn [Fine.run fold_left]. apply IH, Hstep, H.
Qed.

(** What one event can do to the queue. *)
Lemma fine_step_queue (ev : Fine.Event) (st : Fine.State) :
  _work_queue (Fine.shared (Fine.step ev st)) = _work_queue (Fine.shared st)
  \/ (ev = Fine.WorkerGet
      /\ _work_queue (Fine.shared (Fine.step ev st))
         = tl (_work_queue (Fine.shared st)))
  \/ (ev = Fine.Listen
      /\ exists button clk,
           Fine.listener st = Fine.FoundEmpty button clk
           /\ _work_queue (Fine.shared (Fine.step ev st))
              = _work_queue (Fine.shared st) ++ [(button, t_payload clk)]).
Proof.
  destruct st as [s l r].
  destruct ev as [x y b p clk| | |fl|t| |now|];
    cbn [Fine.step]; unfold Fine.on_shared;
    cbn [Fine.listener Fine.raised Fine.shared].
  - left. destruct l; try reflexivity. destruct r; [reflexivity|].
    destruct (negb p || negb _); reflexivity.
  - unfold Fine.listen. cbn [Fine.listener Fine.shared Fine.raised].
    destruct l as [|b clk|b clk|b clk|b clk|b clk|b clk prev|b clk|b clk];
      try (left; reflexivity).
    + left. destruct (Py.index_neg2 _); reflexivity.
    + right. right. split; [reflexivity|]. now exists b, clk.
  - right. left. split; [reflexivity|].
    unfold queue_get. destruct (_work_queue s) eqn:Hq; cbn [snd];
      [exact Hq | reflexivity].
  - left. reflexivity.
  - left. reflexivity.
  - left. reflexivity.
  - left. unfold popleft_if_stale.
    destruct (total_click_history s); [reflexivity|].
    destruct (Py.Qgt_bool _ _); reflexivity.
  - left. reflexivity.
Qed.

Lemma fine_run_snoc (evs : list Fine.Event) (ev : Fine.Event)
    (st : Fine.State) :
  Fine.run (evs ++ [ev]) st = Fine.step ev (Fine.run evs st).
Proof. unfold Fine.run. rewrite fold_left_app. reflexivity. Qed.

(** A callback past line 190 is there because it read [_simulating] as
    false. *)
Lemma fine_step_past_flag_test
    (ev : Fine.Event) (st : Fine.State) (button : Button)
    (clk : ClickClock) :
  past_flag_test button clk (Fine.listener (Fine.step ev st)) ->
  past_flag_test button clk (Fine.listener st)
  \/ (ev = Fine.Listen
      /\ Fine.listener st = Fine.Registered button clk
      /\ _simulating (Fine.shared st) = false).
Proof.
  destruct st as [s l r].
  destruct ev as [x y b p c| | |fl|t| |now|];
    cbn [Fine.step]; unfold Fine.on_shared;
    cbn [Fine.listener Fine.raised Fine.shared];
    try (intro H; left; exact H).
  - destruct l; try (intro H; left; exact H).
    destruct r; [intro H; left; exact H|].
    destruct (negb p || negb _); intro H; left; exact H.
  - unfold Fine.listen. cbn [Fine.listener Fine.shared Fine.raised].
    destruct l as [|b c|b c|b c|b c|b c|b c prev|b c|b c];
      cbn [Fine.listener past_flag_test]; try contradiction.
    + destruct (_simulating s) eqn:Hs; cbn [past_flag_test];
        [contradiction|].
      intros [-> ->]. right. repeat split.
    + destruct (Nat.ltb 1 (length (total_click_history s)));
        cbn [past_flag_test]; [|contradiction].
      intro H. left. exact H.
    + destruct (Py.index_neg2 (total_click_history s));
        cbn [Fine.listener past_flag_test]; [|contradiction].
      intro H. left. exact H.
    + destruct (Qle_bool _ _); cbn [past_flag_test]; [|contradiction].
      intro H. left. exact H.
    + destruct (_work_queue s); cbn [past_flag_test]; [|contradiction].
      intro H. left. exact H.
Qed.

Lemma flag_test_precedes
    (cfg : Config) (evs : list Fine.Event) (button : Button)
    (clk : ClickClock) :
  past_flag_test button clk (Fine.listener (Fine.run evs (Fine.boot cfg))) ->
  exists before after,
    evs = before ++ Fine.Listen :: after
    /\ Fine.listener (Fine.run before (Fine.boot cfg))
       = Fine.Registered button clk
    /\ _simulating (Fine.shared (Fine.run before (Fine.boot cfg))) = false.
Proof.
  induction evs as [|ev evs IH] using rev_ind; intro H.
  - contradiction.
  - rewrite fine_run_snoc in H.
    destruct (fine_step_past_flag_test _ _ _ _ H) as [Hp | (-> & Hl & Hs)].
    + destruct (IH Hp) as (before & after & -> & H1 & H2).
      exists before, (after ++ [ev]).
      split; [|split; assumption].
      rewrite <- app_assoc. reflexivity.
    + exists evs, []. split; [reflexivity|split; assumption].
Qed.


(** The run of [flag_race]: the callback stands before its [put] with
    [_simulating] true, and its next statement enqueues the signal. *)
Example flag_race_puts_while_simulating :
  let st := Fine.run flag_race (Fine.boot DEFAULT_CONFIG) in
  Fine.listener st
  = Fine.FoundEmpty left (mkClickClock (10 # 100) (10 # 100) (10 # 100))
  /\ _simulating (Fine.shared st) = true
  /\ _work_queue (Fine.shared (Fine.step Fine.Listen st))
     = [(left, 10 # 100)]
  /\ _simulating (Fine.shared (Fine.step Fine.Listen st)) = true.
Proof. vm_compute. repeat split. Qed.


Lemma fine_step_index_safe (ev : Fine.Event) (st : Fine.State) :
  Fine.is_popleft ev && Fine.before_read (Fine.listener st) = false ->
  index_safe st -> index_safe (Fine.step ev st).
Proof.
  intros Hev [Hr Hidx].
  destruct st as [s l r].
  cbn [Fine.shared Fine.listener Fine.raised] in Hr, Hidx, Hev. subst r.
  destruct ev as [x y b p clk| | |fl|t| |now|];
    cbn [Fine.step]; unfold Fine.on_shared;
    cbn [Fine.listener Fine.raised Fine.shared].
  - destruct l; try (split; [reflexivity|exact Hidx]).
    destruct (negb p || negb _); split; cbn; try reflexivity;
      try exact Hidx; discriminate.
  - unfold Fine.listen. cbn [Fine.listener Fine.shared Fine.raised].
    destruct l as [|b clk|b clk|b clk|b clk|b clk|b clk prev|b clk|b clk].
    + split; [reflexivity|exact Hidx].
    + split; cbn; [reflexivity|discriminate].
    + split; cbn; [reflexivity|discriminate].
    + split; cbn [Fine.shared Fine.listener Fine.raised]; [reflexivity|].
      intros b' clk' E. destruct (_simulating s); discriminate E.
    + split; cbn [Fine.shared Fine.listener Fine.raised]; [reflexivity|].
      intros b' clk' E.
      destruct (Nat.ltb 1 (length (total_click_history s))) eqn:Hl;
        [reflexivity|discriminate E].
    + destruct (index_neg2_in_range _ (Hidx b clk eq_refl)) as [a ->].
      split; cbn; [reflexivity|discriminate].
    + split; cbn [Fine.shared Fine.listener Fine.raised]; [reflexivity|].
      intros b' clk' E. destruct (Qle_bool _ _); discriminate E.
    + split; cbn [Fine.shared Fine.listener Fine.raised]; [reflexivity|].
      intros b' clk' E. destruct (_work_queue s); discriminate E.
    + split; cbn; [reflexivity|discriminate].
  - split; cbn [Fine.shared Fine.listener Fine.raised]; [reflexivity|].
    intros b clk Hl. specialize (Hidx b clk Hl).
    unfold queue_get. destruct (_work_queue s); exact Hidx.
  - split; [reflexivity|exact Hidx].
  - split; [reflexivity|exact Hidx].
  - split; cbn [Fine.shared Fine.listener Fine.raised]; [reflexivity|].
    intros b clk Hl. specialize (Hidx b clk Hl).
    apply Nat.ltb_lt in Hidx. apply Nat.ltb_lt.
    cbn. rewrite length_app. cbn. lia.
  - split; cbn [Fine.shared Fine.listener Fine.raised]; [reflexivity|].
    intros b clk Hl. rewrite Hl in Hev. discriminate Hev.
  - split; [reflexivity|exact Hidx].
Qed.

Lemma fine_run_index_safe (evs : list Fine.Event) (st : Fine.State) :
  Fine.no_popleft_before_read evs st = true ->
  index_safe st -> index_safe (Fine.run evs st).
Proof.
  revert st. induction evs as [|ev evs IH]; intros st Hevs H; [exact H|].
  cbn [Fine.no_popleft_before_read] in Hevs.
  apply andb_true_iff in Hevs. destruct Hevs as [Hev Hevs].
  apply negb_true_iff in Hev.
  cbn [Fine.run fold_left]. apply IH; [exact Hevs|].
  now apply fine_step_index_safe.
Qed.

(** X5. Among the other threads, whatever the interleaving: no statement
    of the click callback writes the configuration, [_is_listening] or
    [_simulating], and a delivery alone changes nothing of the shared
    state; and as long as the damping loop pops nothing between a
    callback's length test (line 194) and its read of
    [total_click_history[-2]] (line 195), the callback never raises. *)
Theorem callback_among_threads
    (cfg : Config) (evs : list Fine.Event) :
  let st := Fine.run evs (Fine.boot cfg) in
  (Fine.no_popleft_before_read evs (Fine.boot cfg) = true ->
   Fine.raised st = None)
  /\ same_flags (Fine.shared st) (Fine.shared (Fine.step Fine.Listen st))
  /\ forall x y button pressed clk,
       Fine.shared (Fine.step (Fine.Deliver x y button pressed clk) st)
       = Fine.shared st.
Proof.
  intro st. split; [|split].
  - intro Hevs.
    apply (fine_run_index_safe evs (Fine.boot cfg) Hevs).
    split; cbn; [reflexivity|discriminate].
  - destruct st as [s l r]. cbn [Fine.step Fine.shared].
    unfold Fine.listen. cbn [Fine.listener Fine.shared Fine.raised].
    destruct l; try (repeat split; reflexivity).
    destruct (Py.index_neg2 _); repeat split; reflexivity.
  - intros x y button pressed clk.
    destruct st as [s l r]. cbn [Fine.step Fine.shared Fine.listener
                                 Fine.raised].
    destruct l; try reflexivity. destruct r; [reflexivity|].
    destruct (negb pressed || negb _); reflexivity.
Qed.

Lemma callback_among_threads_witness :
  Fine.no_popleft_before_read evictions_elsewhere (Fine.boot DEFAULT_CONFIG)
  = true
  /\ Fine.raised (Fine.run evictions_elsewhere (Fine.boot DEFAULT_CONFIG))
     = None.
Proof.
  split; [vm_compute; reflexivity|].
  apply (callback_among_threads DEFAULT_CONFIG evictions_elsewhere).
  vm_compute. reflexivity.
Defined.

(** X22. The two statements of [register_click_event] are not one step:
    with a press read at 1.000 s and a synthetic click read at 1.001 s,
    the history can end out of clock order, and it can hold the later
    reading twice and the earlier one not at all. *)
Theorem register_click_event_interleaved :
  total_click_history
    (Fine.shared (Fine.run stamp_overtaken (Fine.boot DEFAULT_CONFIG)))
  = [1001 # 1000; 1]
  /\ total_click_history
       (Fine.shared (Fine.run stamp_overwritten (Fine.boot DEFAULT_CONFIG)))
     = [1001 # 1000; 1001 # 1000]
  /\ total_click_history
       (Fine.shared
          (Fine.run (Fine.press_begun left 1 2
                     ++ [Fine.WorkerStamp (1001 # 1000); Fine.WorkerAppend])
                    (Fine.boot DEFAULT_CONFIG)))
     = [1; 1001 # 1000].
Proof. vm_compute. repeat split. Qed.

(** X20. The click callback can raise [IndexError]: when the damping
    loop evicts a timestamp between the length test of line 194 and the
    read of [total_click_history[-2]] of line 195, the deque holds one
    timestamp and the read fails. *)
Theorem callback_index_error_after_eviction :
  let before := Fine.run (Fine.press_at left (69 # 100)
                          ++ Fine.press_begun left 1 4)
                         (Fine.boot DEFAULT_CONFIG) in
  Fine.listener before = Fine.TwoRetained left (mkClickClock 1 1 1)
  /\ total_click_history (Fine.shared before) = [69 # 100; 1]
  /\ Fine.raised before = None
  /\ total_click_history
       (Fine.shared (Fine.step (Fine.DamperPopleft 1) before)) = [1]
  /\ Fine.raised (Fine.run eviction_race (Fine.boot DEFAULT_CONFIG))
     = Some Py.IndexError.
Proof. vm_compute. repeat split. Qed.

(** * The ramp on doubles *)

Tactic Notation "first_pass" integer(n) :=
  split; [vm_compute; reflexivity
         | intros k Hk;
           do n (destruct k as [|k]; [vm_compute; reflexivity|]); lia].

Lemma default_down_ramp_completes_at_6 :
  Float64.completes_at true (Float64.default_ramp 0.5) 6.
Proof. first_pass 6. Qed.

Lemma default_up_ramp_completes_at_2 :
  Float64.completes_at false (Float64.damped (Float64.default_ramp 0.5)) 2.
Proof. first_pass 2. Qed.

Lemma full_down_ramp_completes_at_11 :
  Float64.completes_at true (Float64.default_ramp 0) 11.
Proof. first_pass 11. Qed.

Lemma full_up_ramp_completes_at_4 :
  Float64.completes_at false (Float64.damped (Float64.default_ramp 0)) 4.
Proof. first_pass 4. Qed.



(** On doubles a duration that is not zero can still raise: the smallest
    positive double, 5e-324, divided by the tick period of 4 ms rounds to
    0.0. *)
Example init_underflow_raises :
  Float64.init 250 (PrimFloat.next_up 0) 15 0.5
  = Py.Raise Py.ZeroDivisionError
  /\ PrimFloat.ltb 0 (PrimFloat.next_up 0) = true.
Proof. vm_compute. split; reflexivity. Qed.
